(** * Order-state reconciliation of the crypto-payment bot

    The repository holds two programs that share one design:
    - the modular bot: [database.py] (the SQLite store), [cryptobot.py] (the
      gateway client), [main.py] (user handlers), [admin.py] (admin panel) and
      [webhook.py] (the Flask receiver);
    - the single-file bot [bot.py], with its own tables, its own small gateway
      client, its handlers and its webhook route.

    Each is embedded below in a module of its own, function by function.

    Conventions of the embedding.
    - Monetary columns are SQLite [REAL]s; they are modelled as integers of a
      minor unit ([Z]), so that [total_spent + ?] is exact addition.
    - [datetime.now().isoformat()] is the explicit argument [now]; a loop
      that reads the clock in every turn takes [clock], the reading of each
      turn.
    - The payment provider is an argument [gw]: what [getInvoice/<id>]
      answers during the call, as a function of the invoice id.
    - Telegram calls (answers, edited messages, notifications) are taken to
      succeed; what a handler tells its caller is its [reply].
    - A table is the list of its rows in rowid order, except [users], whose
      [user_id] is the primary key: a finite map from [user_id]. *)

From stdpp Require Import base option list gmap strings.
From Stdlib Require Import ZArith Lia Ascii.

Open Scope string_scope.
Open Scope list_scope.
Open Scope Z_scope.

(** ** Python values and exceptions *)

(** Truthiness of an optional text ([None] and [''] are false). *)
Definition truthy_str (s : option string) : bool :=
  match s with
  | Some t => negb (bool_decide (t = ""))
  | None => false
  end.

(** Truthiness of an optional integer ([None] and [0] are false). *)
Definition truthy_int (n : option Z) : bool :=
  match n with
  | Some k => negb (bool_decide (k = 0))
  | None => false
  end.

(** [needle in hay] on Python strings. *)
Fixpoint str_contains (needle hay : string) : bool :=
  String.prefix needle hay ||
  match hay with
  | EmptyString => false
  | String _ rest => str_contains needle rest
  end.

(** [sqlite3] binds a Python [int] to a statement as a signed 64-bit integer
    and raises [OverflowError] for an [int] outside that range. *)
Definition sqlite_int (z : Z) : bool := (- 2 ^ 63 <=? z) && (z <? 2 ^ 63).

Inductive exn : Type :=
| CryptoBotError (message : string)
| ValueError
| AttributeError (attribute : string)
| OtherException (description : string).

(** A call that may raise while the committed database moves on: the result
    is the database as committed when the call ends, and either the value
    returned or the exception that escaped. *)
Definition M (St A : Type) : Type := St -> St * (exn + A).

Definition ret {St A} (a : A) : M St A := fun db => (db, inr a).

Definition raise {St A} (e : exn) : M St A := fun db => (db, inl e).

Definition bind {St A B} (m : M St A) (k : A -> M St B) : M St B :=
  fun db =>
    match m db with
    | (db', inr a) => k a db'
    | (db', inl e) => (db', inl e)
    end.

(** [try: m  except Exception as e: h e] *)
Definition try_except {St A} (m : M St A) (h : exn -> M St A) : M St A :=
  fun db =>
    match m db with
    | (db', inr a) => (db', inr a)
    | (db', inl e) => h e db'
    end.

(** Lifting a value computed outside the store (a gateway call). *)
Definition lift {St A} (r : exn + A) : M St A := fun db => (db, r).

Declare Scope py_scope.
Delimit Scope py_scope with py.
Notation "'do' x <- m ; k" := (bind m (fun x => k))
  (at level 10, x name, m at level 100, k at level 200) : py_scope.
Notation "'run' m ; k" := (bind m (fun _ => k))
  (at level 10, m at level 100, k at level 200) : py_scope.

(** ** The payment provider *)

(** [float(x)] applied to a JSON field: what it yields, or that it raises. *)
Inductive amount_field : Type :=
| Numeric (a : Z)
| Malformed.

(** The Invoice object of the provider, as far as the checks read it. *)
Record Invoice : Type := mkInvoice {
  inv_status : string;
  inv_amount : amount_field;
  inv_asset : option string
}.

(** What one [getInvoice/<id>] round trip ends in:
    - [Ok_result inv]: the JSON answer is ok and carries the invoice;
    - [Not_ok message]: the JSON answer is not ok, with [error.message] when
      the answer has one;
    - [Client_error text]: the HTTP library's transport error [e], with
      [text = str(e)];
    - [Other_failure d]: any other exception of the call, such as a
      timeout. *)
Inductive response : Type :=
| Ok_result (inv : Invoice)
| Not_ok (message : option string)
| Client_error (text : string)
| Other_failure (description : string).

Definition gateway : Type := Z -> response.

(** A JSON member that holds a text: absent from the object, [null], or the
    text. *)
Inductive member : Type :=
| Absent
| Null
| Text (s : string).

(** [data.get(key, dflt)] on such a member. *)
Definition member_get (x : member) (dflt : option string) : option string :=
  match x with
  | Absent => dflt
  | Null => None
  | Text s => Some s
  end.

(** The result dict of [getInvoice] before it is parsed, as far as the
    synchronous check reads it. *)
Record InvoiceJson : Type := mkInvoiceJson {
  js_status : string;
  js_amount : amount_field;
  js_asset : member
}.

(** What one round trip of the synchronous check ([requests.get] and
    [response.json()]) ends in: an ok answer with its result dict, an answer
    that is not ok, or an exception [e] raised inside its [try] (a transport
    error, a body that is not JSON), with [text = str(e)]. *)
Inductive sync_response : Type :=
| Sync_ok (data : InvoiceJson)
| Sync_not_ok
| Sync_raised (text : string).

(** The Invoice object carried by a webhook update, as far as the receivers
    read it: [invoice_id], [payload] (the order id given at creation),
    [amount] and [asset]; [None] is an absent key. *)
Record InvoiceData : Type := mkInvoiceData {
  ev_invoice_id : option Z;
  ev_payload : option string;
  ev_amount : option amount_field;
  ev_asset : option string
}.

Definition no_invoice_data : InvoiceData := mkInvoiceData None None None None.

(** The request body of a webhook delivery: not JSON, or an update with its
    [update_type] and its [payload] ([None] when absent). *)
Inductive body : Type :=
| Bad_json
| Update (update_type : option string) (payload : option InvoiceData).

(** ** database.py: the SQLite store of the modular bot *)

Module Database.

(** Row of [users] (without its key [user_id] and without [created_at]). *)
Record User : Type := mkUser {
  username : option string;
  first_name : option string;
  last_name : option string;
  language_code : option string;
  total_spent : Z;
  orders_count : Z
}.

(** Row of [orders]. [invoice_id] is a TEXT column that holds
    [str(invoice.invoice_id)], the decimal text of the provider's integer
    id; it is kept as that integer. The display-only columns
    ([product_id], [payment_url], [created_at], [extra_data]) are left
    out. *)
Record Order : Type := mkOrder {
  order_id : string;
  user_id : Z;
  product_name : string;
  amount_usd : Z;
  amount_crypto : Z;
  currency : string;
  network : string;
  invoice_id : Z;
  status : string;
  paid_at : option string
}.

(** Row of [transactions]. The table has an autoincrement [id] and a plain
    (non-unique) index on [invoice_id]; no column is declared UNIQUE. *)
Record Transaction : Type := mkTransaction {
  tx_invoice_id : Z;
  tx_order_id : string;
  tx_amount : Z;
  tx_currency : string;
  tx_network : string;
  tx_status : string
}.

Record Store : Type := mkStore {
  users : gmap Z User;
  orders : list Order;
  transactions : list Transaction
}.

Definition set_users (f : gmap Z User -> gmap Z User) (db : Store) : Store :=
  mkStore (f (users db)) (orders db) (transactions db).

Definition set_orders (f : list Order -> list Order) (db : Store) : Store :=
  mkStore (users db) (f (orders db)) (transactions db).

Definition set_transactions
    (f : list Transaction -> list Transaction) (db : Store) : Store :=
  mkStore (users db) (orders db) (f (transactions db)).

(** [get_connection]: the body runs on a connection of its own; leaving the
    [with] block normally commits, an exception rolls back and is raised
    again. *)
Definition get_connection {A}
    (body : Store -> exn + (Store * A)) : M Store A :=
  fun db =>
    match body db with
    | inr (conn, a) => (conn, inr a)
    | inl e => (db, inl e)
    end.

Definition get_user (uid : Z) : M Store (option User) :=
  get_connection (fun conn => inr (conn, users conn !! uid)).

(** The row returned for a new user comes from [self.get_user], a second
    connection opened before the insert is committed. *)
Definition get_or_create_user (uid : Z)
    (uname fname lname : option string) (lang : option string)
    : M Store (option User) :=
  fun db =>
    get_connection (fun conn =>
      match users conn !! uid with
      | Some row => inr (conn, Some row)
      | None =>
          let conn' :=
            set_users (insert uid (mkUser uname fname lname lang 0 0)) conn in
          match get_user uid db with
          | (_, inr row) => inr (conn', row)
          | (_, inl e) => inl e
          end
      end) db.

Definition credit (amount : Z) (u : User) : User :=
  mkUser (username u) (first_name u) (last_name u) (language_code u)
         (total_spent u + amount) (orders_count u + 1).

Definition update_user_stats (uid : Z) (amount : Z) : M Store unit :=
  get_connection (fun conn =>
    inr (set_users (alter (credit amount) uid) conn, tt)).

Definition has_order_id (oid : string) (o : Order) : bool :=
  bool_decide (order_id o = oid).

Definition get_order (oid : string) : M Store (option Order) :=
  get_connection (fun conn => inr (conn, find (has_order_id oid) (orders conn))).

Definition get_order_by_invoice (inv : Z) : M Store (option Order) :=
  get_connection (fun conn =>
    inr (conn, find (fun o => bool_decide (invoice_id o = inv)) (orders conn))).

Definition with_status (st : string) (o : Order) : Order :=
  mkOrder (order_id o) (user_id o) (product_name o) (amount_usd o)
          (amount_crypto o) (currency o) (network o) (invoice_id o)
          st (paid_at o).

Definition with_status_paid_at (st : string) (t : option string) (o : Order)
    : Order :=
  mkOrder (order_id o) (user_id o) (product_name o) (amount_usd o)
          (amount_crypto o) (currency o) (network o) (invoice_id o)
          st t.

(** [UPDATE orders SET ... WHERE order_id = ?] *)
Definition update_where (oid : string) (f : Order -> Order)
    (rows : list Order) : list Order :=
  map (fun o => if has_order_id oid o then f o else o) rows.

Definition update_order_status (oid : string) (st : string)
    (t : option string) : M Store unit :=
  get_connection (fun conn =>
    if truthy_str t
    then inr (set_orders (update_where oid (with_status_paid_at st t)) conn, tt)
    else inr (set_orders (update_where oid (with_status st)) conn, tt)).

(** Returns [cursor.lastrowid]. *)
Definition create_transaction (inv : Z) (oid : string) (amount : Z)
    (cur net st : string) : M Store nat :=
  get_connection (fun conn =>
    let conn' :=
      set_transactions (fun rows => rows ++ [mkTransaction inv oid amount cur net st])
                       conn in
    inr (conn', length (transactions conn'))).

Definition transaction_exists (inv : Z) : M Store bool :=
  get_connection (fun conn =>
    inr (conn, existsb (fun t => bool_decide (tx_invoice_id t = inv))
                       (transactions conn))).

End Database.

(** [d.get(k, dflt)] on a dict literal with string keys. *)
Fixpoint dict_get {V} (d : list (string * V)) (k : string) (dflt : V) : V :=
  match d with
  | [] => dflt
  | (k', v) :: rest => if bool_decide (k' = k) then v else dict_get rest k dflt
  end.

(** ** cryptobot.py: the gateway client of the modular bot *)

Module CryptoBot.

(** [class PaymentStatus(Enum)], with the values "active", "paid" and
    "expired". *)
Inductive PaymentStatus : Type := PENDING | PAID | EXPIRED.

Definition is_PAID (s : PaymentStatus) : bool :=
  match s with PAID => true | _ => false end.

(** The [raw_response] dict of a [PaymentCheck]: empty, the invoice's
    [to_dict()], the provider's result dict itself (the synchronous check
    keeps it unparsed), or the error record of the synchronous check. *)
Inductive raw : Type :=
| Raw_empty
| Raw_invoice (inv : Invoice)
| Raw_data (data : InvoiceJson)
| Raw_error (text : string).

(** [raw_response.get('status', dflt)] *)
Definition raw_status (r : raw) (dflt : string) : string :=
  match r with
  | Raw_invoice inv => inv_status inv
  | Raw_data data => js_status data
  | _ => dflt
  end.

(** [@dataclass class PaymentCheck]. What [asset] holds depends on who
    builds the check: the asynchronous check always stores a text
    ([invoice.asset or '']), the synchronous one stores what
    [data.get('asset', '')] gives, which is [None] for a JSON [null]. The
    type of the field is therefore a parameter. *)
Record PaymentCheck (asset_t : Type) : Type := mkPaymentCheck {
  pc_invoice_id : Z;
  pc_status : PaymentStatus;
  pc_amount : Z;
  pc_asset : asset_t;
  is_paid : bool;
  raw_response : raw
}.

Arguments mkPaymentCheck {asset_t}.
Arguments pc_invoice_id {asset_t}.
Arguments pc_status {asset_t}.
Arguments pc_amount {asset_t}.
Arguments pc_asset {asset_t}.
Arguments is_paid {asset_t}.
Arguments raw_response {asset_t}.


Definition _make_request (r : response) : exn + Invoice :=
  match r with
  | Ok_result inv => inr inv
  | Not_ok message => inl (CryptoBotError (default "Unknown error" message))
  | Client_error text => inl (CryptoBotError ("Network error: " +:+ text))
  | Other_failure d => inl (OtherException d)
  end.

Definition get_invoice (r : response) : exn + option Invoice :=
  match _make_request r with
  | inr inv => inr (Some inv)
  | inl (CryptoBotError message) =>
      if str_contains "INVOICE_NOT_FOUND" message
      then inr None
      else inl (CryptoBotError message)
  | inl e => inl e
  end.

Definition status_map : list (string * PaymentStatus) :=
  [("active", PENDING); ("paid", PAID); ("expired", EXPIRED)].

(** [float(x)] guarded by [except (ValueError, TypeError): amount = 0.0] *)
Definition float_or_zero (x : amount_field) : Z :=
  match x with
  | Numeric a => a
  | Malformed => 0
  end.

Definition check_payment (inv_id : Z) (r : response)
    : exn + PaymentCheck string :=
  match get_invoice r with
  | inl e => inl e
  | inr None => inr (mkPaymentCheck inv_id EXPIRED 0 "" false Raw_empty)
  | inr (Some invoice) =>
      let status := dict_get status_map (inv_status invoice) EXPIRED in
      let amount := float_or_zero (inv_amount invoice) in
      inr (mkPaymentCheck inv_id status amount (default "" (inv_asset invoice))
                          (is_PAID status) (Raw_invoice invoice))
  end.

(** [check_payment_sync]: the whole body is inside [try]; an answer that is
    not ok and any exception yield an EXPIRED check. For an ok answer the
    check is built from the result dict itself: [asset] is
    [data.get('asset', '')] and [raw_response] is the dict. *)
Definition check_payment_sync (inv_id : Z) (r : sync_response)
    : PaymentCheck (option string) :=
  match r with
  | Sync_ok data =>
      let status := dict_get status_map (js_status data) EXPIRED in
      let amount := float_or_zero (js_amount data) in
      mkPaymentCheck inv_id status amount (member_get (js_asset data) (Some ""))
                     (is_PAID status) (Raw_data data)
  | Sync_not_ok => mkPaymentCheck inv_id EXPIRED 0 (Some "") false Raw_empty
  | Sync_raised text =>
      mkPaymentCheck inv_id EXPIRED 0 (Some "") false (Raw_error text)
  end.

End CryptoBot.

(** ** main.py: the user handlers of the modular bot *)

Module Main.
Import Database.

Open Scope py_scope.

(** What the handler tells the user. *)
Inductive reply : Type :=
| Welcome
| Order_not_found
| Payment_success
| Payment_not_paid (status_text : string)
| Check_error
| Already_processed
| Order_cancelled.

Definition cmd_start (uid : Z) (uname fname lname lang : option string)
    : M Store reply :=
  run get_or_create_user uid uname fname lname lang;
  ret Welcome.

Definition status_text : list (string * string) :=
  [("active", "в процессе"); ("expired", "истёк"); ("cancelled", "отменён")].

Definition check_payment (now : string) (gw : gateway) (oid : string)
    : M Store reply :=
  do order <- get_order oid;
  match order with
  | None => ret Order_not_found
  | Some order =>
      try_except
        (do payment <- lift (CryptoBot.check_payment (invoice_id order)
                                                     (gw (invoice_id order)));
         if CryptoBot.is_paid payment then
           run update_order_status oid "paid" (Some now);
           run update_user_stats (user_id order) (amount_usd order);
           do present <- transaction_exists (invoice_id order);
           run (if present then ret tt
                else run create_transaction (invoice_id order) oid
                           (CryptoBot.pc_amount payment)
                           (CryptoBot.pc_asset payment) "" "paid";
                     ret tt);
           ret Payment_success
         else
           ret (Payment_not_paid
                  (dict_get status_text
                            (CryptoBot.raw_status (CryptoBot.raw_response payment) "")
                            "неизвестен")))
        (fun _ => ret Check_error)
  end.

Definition cancel_payment (oid : string) : M Store reply :=
  do order <- get_order oid;
  match order with
  | None => ret Order_not_found
  | Some order =>
      if negb (bool_decide (status order = "pending"))
      then ret Already_processed
      else
        run update_order_status oid "cancelled" None;
        ret Order_cancelled
  end.

End Main.

(** ** admin.py: the admin panel of the modular bot *)

Module Admin.
Import Database.

Open Scope py_scope.

Inductive reply : Type :=
| Order_not_found
| Status_already (st : string)
| Payment_confirmed
| Payment_not_paid (status_text : string)
| Order_confirmed
| Order_cancelled.

Definition status_text : list (string * string) :=
  [("active", "в процессе"); ("expired", "истёк"); ("cancelled", "отменён")].

(** The gateway call is not inside a [try]: its exception escapes the
    handler. [PaymentCheck] has no attribute [currency], so building the
    arguments of [create_transaction] raises [AttributeError]. *)
Definition manual_check_payment (now : string) (gw : gateway) (oid : string)
    : M Store reply :=
  do order <- get_order oid;
  match order with
  | None => ret Order_not_found
  | Some order =>
      if negb (bool_decide (status order = "pending"))
      then ret (Status_already (status order))
      else
        do payment <- lift (CryptoBot.check_payment (invoice_id order)
                                                    (gw (invoice_id order)));
        if CryptoBot.is_paid payment then
          run update_order_status oid "paid" (Some now);
          run update_user_stats (user_id order) (amount_usd order);
          do present <- transaction_exists (invoice_id order);
          run (if present then ret tt else raise (AttributeError "currency"));
          ret Payment_confirmed
        else
          ret (Payment_not_paid
                 (dict_get status_text
                    (CryptoBot.raw_status (CryptoBot.raw_response payment) "")
                    (CryptoBot.raw_status (CryptoBot.raw_response payment)
                                          "неизвестен")))
  end.

Definition manual_confirm_order (now : string) (oid : string)
    : M Store reply :=
  do order <- get_order oid;
  match order with
  | None => ret Order_not_found
  | Some order =>
      run update_order_status oid "paid" (Some now);
      run update_user_stats (user_id order) (amount_usd order);
      ret Order_confirmed
  end.

Definition manual_cancel_order (oid : string) : M Store reply :=
  do order <- get_order oid;
  match order with
  | None => ret Order_not_found
  | Some order =>
      run update_order_status oid "cancelled" None;
      ret Order_cancelled
  end.

End Admin.

(** ** webhook.py: the Flask receiver of the modular bot *)

Module Webhook.
Import Database.

Open Scope py_scope.

(** Status code and JSON answer. *)
Inductive http_reply : Type :=
| Ok_200
| Already_processed_200
| Ignored_200
| Bad_request_400 (error : string)
| Not_found_404
| Server_error_500.

(** [float(invoice_data.get('amount', order['amount_usd']))] *)
Definition float_amount (x : option amount_field) (dflt : Z) : exn + Z :=
  match x with
  | None => inr dflt
  | Some (Numeric a) => inr a
  | Some Malformed => inl ValueError
  end.

(** The order named by the update: by its payload when that is a non-empty
    order id of a stored order, otherwise by the invoice id. *)
Definition locate (oid : option string) (inv : option Z)
    : M Store (option Order) :=
  do order <- (if truthy_str oid then get_order (default "" oid) else ret None);
  match order, inv with
  | Some o, _ => ret (Some o)
  | None, Some i => get_order_by_invoice i
  | None, None => ret None
  end.

Definition _handle_invoice_paid (now : string) (payload : option InvoiceData)
    : M Store http_reply :=
  try_except
    (match payload with
     | None => ret (Bad_request_400 "No invoice data")
     | Some invoice_data =>
         if negb (truthy_int (ev_invoice_id invoice_data))
         then ret (Bad_request_400 "No invoice_id")
         else
           let inv := default 0 (ev_invoice_id invoice_data) in
           do order <- locate (ev_payload invoice_data) (ev_invoice_id invoice_data);
           match order with
           | None => ret Not_found_404
           | Some order =>
               if bool_decide (status order = "paid")
               then ret Already_processed_200
               else
                 run update_order_status (order_id order) "paid" (Some now);
                 run update_user_stats (user_id order) (amount_usd order);
                 do present <- transaction_exists inv;
                 run (if present then ret tt
                      else
                        do amount <- lift (float_amount (ev_amount invoice_data)
                                                        (amount_usd order));
                        run create_transaction inv (order_id order) amount
                              (default (currency order) (ev_asset invoice_data))
                              "" "paid";
                        ret tt);
                 ret Ok_200
           end
     end)
    (fun _ => ret Server_error_500).

(** Defined by the receiver but reached from no route. *)
Definition _handle_invoice_expired (payload : option InvoiceData)
    : M Store http_reply :=
  try_except
    (let invoice_data := default no_invoice_data payload in
     do order <- locate (ev_payload invoice_data) (ev_invoice_id invoice_data);
     match order with
     | None => ret Not_found_404
     | Some order =>
         if negb (bool_decide (status order = "pending"))
         then ret Already_processed_200
         else
           run update_order_status (order_id order) "expired" None;
           ret Ok_200
     end)
    (fun _ => ret Server_error_500).

(** A signature that does not verify is logged and the update is handled
    all the same. *)
Definition _handle_webhook (now : string) (b : body) : M Store http_reply :=
  match b with
  | Bad_json => ret (Bad_request_400 "Invalid JSON")
  | Update update_type payload =>
      if bool_decide (update_type = Some "invoice_paid")
      then _handle_invoice_paid now payload
      else ret Ignored_200
  end.

End Webhook.

(** ** bot.py: the single-file bot *)

Module Bot.

(** Row of [users] (without its key [user_id]); [total_spent] and
    [orders_count] are declared [DEFAULT 0]. *)
Record User : Type := mkUser {
  username : option string;
  first_name : option string;
  total_spent : Z;
  orders_count : Z
}.

(** Row of [orders]; [id] is the autoincrement rowid. The display-only
    columns ([product_id], [created_at]) are left out. *)
Record Order : Type := mkOrder {
  id : Z;
  order_id : string;
  user_id : Z;
  product_name : string;
  amount_usd : Z;
  asset : string;
  invoice_id : Z;
  status : string;
  paid_at : option string
}.

(** Row of [transactions]: no column is declared UNIQUE and the table has
    no index. [tx_amount] is the text the provider sent, as SQLite reads
    it into the REAL column. *)
Record Transaction : Type := mkTransaction {
  tx_invoice_id : option Z;
  tx_order_id : string;
  tx_amount : amount_field;
  tx_asset : string;
  tx_status : string
}.

Record Store : Type := mkStore {
  users : gmap Z User;
  orders : list Order;
  transactions : list Transaction
}.

Definition set_users (f : gmap Z User -> gmap Z User) (db : Store) : Store :=
  mkStore (f (users db)) (orders db) (transactions db).

Definition set_orders (f : list Order -> list Order) (db : Store) : Store :=
  mkStore (users db) (f (orders db)) (transactions db).

Definition set_transactions
    (f : list Transaction -> list Transaction) (db : Store) : Store :=
  mkStore (users db) (orders db) (f (transactions db)).

(** *** class CryptoBotAPI *)

(** The dict returned by [check_payment]; [None] is an absent key. *)
Record Payment : Type := mkPayment {
  p_status : string;
  p_is_paid : bool;
  p_amount : option amount_field;
  p_asset : option string
}.

(** [_request] returns the decoded JSON answer; a transport failure is the
    exception of the HTTP library, which nothing here catches. *)
Definition _request (r : response) : exn + option Invoice :=
  match r with
  | Ok_result inv => inr (Some inv)
  | Not_ok _ => inr None
  | Client_error text => inl (OtherException text)
  | Other_failure d => inl (OtherException d)
  end.

(** [result["result"]] when [result.get("ok")], otherwise [None]. *)
Definition get_invoice (r : response) : exn + option Invoice := _request r.

Definition status_map : list (string * string) :=
  [("active", "pending"); ("paid", "paid"); ("expired", "expired")].

Definition api_check_payment (r : response) : exn + Payment :=
  match get_invoice r with
  | inl e => inl e
  | inr None => inr (mkPayment "unknown" false None None)
  | inr (Some invoice) =>
      let st := dict_get status_map (inv_status invoice) "unknown" in
      inr (mkPayment st (bool_decide (st = "paid"))
                     (Some (inv_amount invoice))
                     (Some (default "" (inv_asset invoice))))
  end.

(** *** Handlers

    A handler opens one connection; the [UPDATE]s and [INSERT]s it
    executes stay in the connection until [conn.commit()], and a handler
    that ends without committing leaves the database as it was. The result
    is the committed database and the reply. *)

Inductive reply : Type :=
| Welcome
| Order_not_found
| Payment_success
| Payment_not_paid (status_text : string)
| Check_error
| Already_processed
| Order_cancelled
| Not_admin
| Nothing_pending
| Sweep_done (checked confirmed : nat).

(** [INSERT OR REPLACE INTO users (user_id, username, first_name)]: a row
    with the same key is deleted first; the columns not listed take their
    defaults. *)
Definition cmd_start (uid : Z) (uname fname : option string) (db : Store)
    : Store * reply :=
  let conn := set_users (insert uid (mkUser uname fname 0 0)) db in
  (conn, Welcome).

Definition has_order_id (oid : string) (o : Order) : bool :=
  bool_decide (order_id o = oid).

Definition mark_paid (t : string) (o : Order) : Order :=
  mkOrder (id o) (order_id o) (user_id o) (product_name o) (amount_usd o)
          (asset o) (invoice_id o) "paid" (Some t).

Definition mark_cancelled (o : Order) : Order :=
  mkOrder (id o) (order_id o) (user_id o) (product_name o) (amount_usd o)
          (asset o) (invoice_id o) "cancelled" (paid_at o).

Definition credit (amount : Z) (u : User) : User :=
  mkUser (username u) (first_name u) (total_spent u + amount)
         (orders_count u + 1).

(** [UPDATE orders SET status = 'paid', paid_at = ? WHERE order_id = ?] *)
Definition exec_mark_paid (t : string) (oid : string) : Store -> Store :=
  set_orders (map (fun o => if has_order_id oid o then mark_paid t o else o)).

(** [UPDATE orders SET status = 'paid', paid_at = ? WHERE id = ?] *)
Definition exec_mark_paid_by_id (t : string) (rowid : Z) : Store -> Store :=
  set_orders (map (fun o => if bool_decide (id o = rowid) then mark_paid t o else o)).

(** [UPDATE users SET total_spent = total_spent + ?,
    orders_count = orders_count + 1 WHERE user_id = ?] *)
Definition exec_credit (uid : Z) (amount : Z) : Store -> Store :=
  set_users (alter (credit amount) uid).

(** [INSERT INTO transactions (...) VALUES (...)] *)
Definition exec_insert_transaction (t : Transaction) : Store -> Store :=
  set_transactions (fun rows => rows ++ [t]).

Definition status_text : list (string * string) :=
  [("pending", "в процессе"); ("expired", "истёк")].

Definition check_payment (now : string) (gw : gateway) (oid : string)
    (db : Store) : Store * reply :=
  match find (has_order_id oid) (orders db) with
  | None => (db, Order_not_found)
  | Some order =>
      match api_check_payment (gw (invoice_id order)) with
      | inl _ => (db, Check_error)
      | inr payment =>
          if p_is_paid payment then
            let conn := exec_mark_paid now oid db in
            let conn := exec_credit (user_id order) (amount_usd order) conn in
            match p_amount payment, p_asset payment with
            | Some amount, Some a =>
                let conn :=
                  exec_insert_transaction
                    (mkTransaction (Some (invoice_id order)) oid amount a "paid")
                    conn in
                (conn, Payment_success)
            | _, _ => (db, Check_error)
            end
          else
            (db, Payment_not_paid
                   (dict_get status_text (p_status payment) "неизвестен"))
      end
  end.

Definition cancel_order (oid : string) (db : Store) : Store * reply :=
  match find (has_order_id oid) (orders db) with
  | None => (db, Order_not_found)
  | Some order =>
      if negb (bool_decide (status order = "pending"))
      then (db, Already_processed)
      else
        let conn :=
          set_orders (map (fun o => if has_order_id oid o
                                    then mark_cancelled o else o)) db in
        (conn, Order_cancelled)
  end.

(** One turn of the sweep's loop, on the connection and the two counters;
    [now] is what [datetime.now()] gives in this turn. An exception of the
    gateway call is logged and the order is skipped. *)
Definition sweep_step (now : string) (gw : gateway)
    (acc : Store * (nat * nat)) (order : Order) : Store * (nat * nat) :=
  let '(conn, (checked, confirmed)) := acc in
  match api_check_payment (gw (invoice_id order)) with
  | inl _ => (conn, (checked, confirmed))
  | inr payment =>
      if p_is_paid payment then
        let conn := exec_mark_paid_by_id now (id order) conn in
        let conn := exec_credit (user_id order) (amount_usd order) conn in
        (conn, (S checked, S confirmed))
      else (conn, (S checked, confirmed))
  end.

Definition is_pending (o : Order) : bool := bool_decide (status o = "pending").

(** [for order in pending_orders]: the turns of the loop, in order. Each
    turn reads the clock anew (and the loop sleeps between turns):
    [clock turn] is the reading of turn number [turn]. *)
Fixpoint for_each_pending (clock : nat -> string) (gw : gateway) (turn : nat)
    (pending_orders : list Order) (acc : Store * (nat * nat))
    : Store * (nat * nat) :=
  match pending_orders with
  | [] => acc
  | order :: rest =>
      for_each_pending clock gw (S turn) rest
                       (sweep_step (clock turn) gw acc order)
  end.

Definition admin_check_all (is_admin : bool) (clock : nat -> string)
    (gw : gateway) (db : Store) : Store * reply :=
  if negb is_admin then (db, Not_admin)
  else
    let pending_orders := List.filter is_pending (orders db) in
    match pending_orders with
    | [] => (db, Nothing_pending)
    | _ =>
        let '(conn, (checked, confirmed)) :=
          for_each_pending clock gw 0 pending_orders (db, (0%nat, 0%nat)) in
        (conn, Sweep_done checked confirmed)
    end.

(** *** The webhook route *)

Inductive http_reply : Type :=
| Ok_200
| Server_error_500.

(** The route. Its statements run on one connection, committed after the
    [INSERT]. The invoice id of the update goes into the [INSERT] as the
    provider sent it: outside the 64-bit range the binding raises
    [OverflowError], and the route answers 500 with nothing committed. *)
Definition webhook (now : string) (b : body) (db : Store)
    : Store * http_reply :=
  match b with
  | Bad_json => (db, Server_error_500)
  | Update update_type payload =>
      if bool_decide (update_type = Some "invoice_paid") then
        let invoice_data := default no_invoice_data payload in
        let oid := default "" (ev_payload invoice_data) in
        if truthy_str (Some oid) then
          match find (has_order_id oid) (orders db) with
          | Some order =>
              if bool_decide (status order = "pending") then
                let conn := exec_mark_paid now oid db in
                let conn := exec_credit (user_id order) (amount_usd order) conn in
                if negb (from_option sqlite_int true
                                     (ev_invoice_id invoice_data))
                then (db, Server_error_500)
                else
                  let conn :=
                    exec_insert_transaction
                      (mkTransaction (ev_invoice_id invoice_data) oid
                                     (default (Numeric 0) (ev_amount invoice_data))
                                     (default "" (ev_asset invoice_data))
                                     "paid")
                      conn in
                  (conn, Ok_200)
              else (db, Ok_200)
          | None => (db, Ok_200)
          end
        else (db, Ok_200)
      else (db, Ok_200)
  end.

End Bot.

(** ** Concrete stores and gateways used by the scenarios *)

Module Scenario.

(** The provider reports the invoice with the given status, settled as
    9.99 USDT. *)
Definition reports (st : string) : gateway :=
  fun _ => Ok_result (mkInvoice st (Numeric 999) (Some "USDT")).

(** Every round trip ends in a connection error. *)
Definition unreachable : gateway :=
  fun _ => Client_error "Cannot connect to host pay.crypt.bot:443".

(** The provider answers that it knows no such invoice. *)
Definition not_found : gateway :=
  fun _ => Not_ok (Some "INVOICE_NOT_FOUND").

Definition t1 : string := "2024-05-01T10:00:00".
Definition t2 : string := "2024-05-01T10:00:30".

(** Modular bot: user 42 owns order A1 (9.99, invoice 7). *)
Definition ann : Database.User :=
  Database.mkUser (Some "ann") (Some "Ann") None (Some "ru") 0 0.

Definition order_A1 (st : string) (paid : option string) : Database.Order :=
  Database.mkOrder "A1" 42 "Basic" 999 999 "USDT" "" 7 st paid.

Definition db_with (st : string) (paid : option string) : Database.Store :=
  Database.mkStore {[ 42 := ann ]} [order_A1 st paid] [].

Definition db_pending : Database.Store := db_with "pending" None.

(** The same order after a settlement: paid, credited, one ledger row. *)
Definition db_settled : Database.Store :=
  Database.mkStore
    {[ 42 := Database.mkUser (Some "ann") (Some "Ann") None (Some "ru") 999 1 ]}
    [order_A1 "paid" (Some t1)]
    [Database.mkTransaction 7 "A1" 999 "USDT" "" "paid"].

(** Single-file bot: the same user and order in its schema. *)
Definition bot_ann : Bot.User := Bot.mkUser (Some "ann") (Some "Ann") 0 0.

Definition bot_order_A1 (st : string) (paid : option string) : Bot.Order :=
  Bot.mkOrder 1 "A1" 42 "Basic" 999 "USDT" 7 st paid.

Definition bot_pending : Bot.Store :=
  Bot.mkStore {[ 42 := bot_ann ]} [bot_order_A1 "pending" None] [].

Definition bot_settled : Bot.Store :=
  Bot.mkStore
    {[ 42 := Bot.mkUser (Some "ann") (Some "Ann") 999 1 ]}
    [bot_order_A1 "paid" (Some t1)]
    [Bot.mkTransaction (Some 7) "A1" (Numeric 999) "USDT" "paid"].

(** A paid update for invoice 7 / order A1 whose amount is not a number. *)
Definition update_bad_amount : InvoiceData :=
  mkInvoiceData (Some 7) (Some "A1") (Some Malformed) (Some "USDT").

Definition update_paid : InvoiceData :=
  mkInvoiceData (Some 7) (Some "A1") (Some (Numeric 999)) (Some "USDT").

End Scenario.

(** ** Specification predicates *)

(** The terminal statuses of an order. *)
Definition terminal (st : string) : Prop :=
  st = "paid" \/ st = "cancelled" \/ st = "expired".


(** The store after the paid branch of [Main.check_payment] for [order],
    when the provider's invoice is [inv]. *)
Definition after_paid (now : string) (oid : string) (order : Database.Order)
    (inv : Invoice) (db : Database.Store) : Database.Store :=
  let db1 :=
    Database.set_orders
      (Database.update_where oid
         (Database.with_status_paid_at "paid" (Some now))) db in
  let db2 :=
    Database.set_users
      (alter (Database.credit (Database.amount_usd order))
             (Database.user_id order)) db1 in
  if existsb (fun t => bool_decide (Database.tx_invoice_id t
                                    = Database.invoice_id order))
             (Database.transactions db)
  then db2
  else Database.set_transactions
         (fun rows => rows ++ [Database.mkTransaction
                                 (Database.invoice_id order) oid
                                 (CryptoBot.float_or_zero (inv_amount inv))
                                 (default "" (inv_asset inv)) "" "paid"])
         db2.

(** The ledger after a call: untouched, or longer by one row whose invoice id
    was not in it. *)
Definition ledger_step (before after : list Database.Transaction) : Prop :=
  after = before \/
  exists row,
    after = before ++ [row] /\
    existsb (fun t => bool_decide (Database.tx_invoice_id t
                                   = Database.tx_invoice_id row))
            before = false.

(** No two ledger rows carry the same invoice id. *)
Definition one_row_per_invoice (rows : list Database.Transaction) : Prop :=
  NoDup (map Database.tx_invoice_id rows).

(** The first two writes of the paid transition of the modular bot for
    [order]: the status write, then the owner's credit. *)
Definition status_and_credit (now : string) (order : Database.Order)
    (db : Database.Store) : Database.Store :=
  Database.set_users
    (alter (Database.credit (Database.amount_usd order))
           (Database.user_id order))
    (Database.set_orders
       (Database.update_where (Database.order_id order)
          (Database.with_status_paid_at "paid" (Some now))) db).

(** ** bot.py: keyboards, callback data and the purchase flow *)

(** [s.split(sep)] for a separator of one character: the pieces between the
    separators, at least one piece. *)
Fixpoint split_on (sep : Ascii.ascii) (s : string) : list string :=
  match s with
  | EmptyString => [EmptyString]
  | String c rest =>
      if Ascii.eqb c sep then EmptyString :: split_on sep rest
      else match split_on sep rest with
           | piece :: pieces => String c piece :: pieces
           | [] => [String c EmptyString]
           end
  end.

(** [callback.data.split(":")[1]]; an [IndexError] when the data holds no
    colon. *)
Definition callback_arg (data : string) : exn + string :=
  match split_on ":"%char data with
  | _ :: arg :: _ => inr arg
  | _ => inl (OtherException "IndexError")
  end.

Module BotKeyboards.

Inductive Button : Type :=
| Url_button (text url : string)
| Callback_button (text callback_data : string).

(** An inline keyboard: its rows of buttons. *)
Definition Keyboard : Type := list (list Button).

Definition payment_keyboard (pay_url order_id : string) : Keyboard :=
  [ [Url_button "💳 Оплатить" pay_url];
    [Callback_button "✅ Я оплатил" ("check:" +:+ order_id)];
    [Callback_button "❌ Отменить" ("cancel:" +:+ order_id)] ].

Definition order_detail_keyboard (order_id st : string) : Keyboard :=
  (if bool_decide (st = "pending")
   then [ [Callback_button "✅ Я оплатил" ("check:" +:+ order_id);
           Callback_button "❌ Отменить" ("cancel:" +:+ order_id)] ]
   else [])
  ++ [ [Callback_button "🔙 К заказам" "back:orders"] ].

(** The callback data of every callback button of a keyboard. *)
Definition callbacks (k : Keyboard) : list string :=
  flat_map (fun row =>
              flat_map (fun b => match b with
                                 | Callback_button _ data => [data]
                                 | Url_button _ _ => []
                                 end) row) k.

(** The callback handlers as the dispatcher calls them, on the callback's
    data: the first line of each reads the order id out of the data. An
    exception of that line leaves the handler. *)
Definition on_check (now : string) (gw : gateway) (data : string)
    (db : Bot.Store) : Bot.Store * (exn + Bot.reply) :=
  match callback_arg data with
  | inl e => (db, inl e)
  | inr order_id =>
      let '(db', r) := Bot.check_payment now gw order_id db in (db', inr r)
  end.

Definition on_cancel (data : string) (db : Bot.Store)
    : Bot.Store * (exn + Bot.reply) :=
  match callback_arg data with
  | inl e => (db, inl e)
  | inr order_id =>
      let '(db', r) := Bot.cancel_order order_id db in (db', inr r)
  end.

(** [order_detail]: the keyboard shown with an order's details, or that the
    order is not found. *)
Definition order_detail (data : string) (db : Bot.Store)
    : exn + option Keyboard :=
  match callback_arg data with
  | inl e => inl e
  | inr order_id =>
      match find (Bot.has_order_id order_id) (Bot.orders db) with
      | None => inr None
      | Some order => inr (Some (order_detail_keyboard order_id (Bot.status order)))
      end
  end.

End BotKeyboards.

(** The Invoice object the provider returns for [createInvoice], as far as
    the handlers read it; [ni_amount] is its amount as [float()] reads it. *)
Record NewInvoice : Type := mkNewInvoice {
  ni_invoice_id : Z;
  ni_amount : amount_field;
  ni_asset : option string;
  ni_url : string
}.

(** What one [createInvoice] round trip ends in: an ok answer with the
    invoice, an answer that is not ok (with [error.message] when it has
    one), a transport error of the HTTP library ([text = str(e)]), or
    another exception of the call. *)
Inductive create_response : Type :=
| Created (invoice : NewInvoice)
| Refused (message : option string)
| Create_client_error (text : string)
| Create_failed (description : string).

Module BotPurchase.

(** [CryptoBotAPI.create_invoice] *)
Definition create_invoice (r : create_response) : exn + NewInvoice :=
  match r with
  | Created invoice => inr invoice
  | Refused message =>
      inl (OtherException ("CryptoBot error: " +:+ default "Unknown error" message))
  | Create_client_error text => inl (OtherException text)
  | Create_failed d => inl (OtherException d)
  end.

Inductive reply : Type :=
| Invoice_created (pay_url : string) (keyboard : BotKeyboards.Keyboard)
| Creation_failed.




End BotPurchase.

(** ** database.py, cryptobot.py, main.py, webhook.py: further functions *)

Module DatabaseOrders.
Import Database.

(** [@dataclass class Order]: the object the purchase flow builds and hands
    to [create_order]. It has no field [order_id]. Its [invoice_id] is kept
    as the provider's integer, as in the [orders] rows. *)
Record OrderObject : Type := mkOrderObject {
  obj_id : Z;
  obj_user_id : Z;
  obj_product_id : string;
  obj_product_name : string;
  obj_amount_usd : Z;
  obj_amount_crypto : Z;
  obj_currency : string;
  obj_network : string;
  obj_invoice_id : Z;
  obj_payment_url : string;
  obj_status : string;
  obj_created_at : string;
  obj_paid_at : option string;
  obj_extra_data : option string
}.

(** [create_order]: the parameters of the [INSERT] start with
    [order.order_id], an attribute the object does not have, so building
    them raises before the statement is executed. *)
Definition create_order (order : OrderObject) : M Store OrderObject :=
  get_connection (fun conn => inl (AttributeError "order_id")).

(** [delete_old_orders]: [DELETE FROM orders WHERE status = 'cancelled' AND
    datetime(created_at) < datetime('now', '-N days')]. The age test, which
    reads [created_at] and the clock, is the argument [old]. Returns
    [cursor.rowcount]. *)
Definition delete_old_orders (old : Order -> bool) : M Store nat :=
  get_connection (fun conn =>
    let doomed o := bool_decide (status o = "cancelled") && old o in
    inr (set_orders (List.filter (fun o => negb (doomed o))) conn,
         length (List.filter doomed (orders conn)))).

End DatabaseOrders.

Module MainPurchase.
Import Database.

Open Scope py_scope.

(** [CryptoBotAPI.create_invoice] of [cryptobot.py] for a crypto invoice: the
    asset is required, then the request is made and its result parsed. *)
Definition create_invoice (asset : option string) (r : create_response)
    : exn + NewInvoice :=
  if negb (truthy_str asset)
  then inl (CryptoBotError "Asset is required for crypto invoices")
  else
    match r with
    | Created invoice => inr invoice
    | Refused message => inl (CryptoBotError (default "Unknown error" message))
    | Create_client_error text =>
        inl (CryptoBotError ("Network error: " +:+ text))
    | Create_failed d => inl (OtherException d)
    end.

(** [float(invoice.amount)] *)
Definition float (x : amount_field) : exn + Z :=
  match x with
  | Numeric a => inr a
  | Malformed => inl ValueError
  end.

Inductive reply : Type :=
| Ask_amount
| Payment_created (pay_url : string)
| Creation_error.

(** [create_payment_callback]: [oid] is the order id it generates, [now] the
    clock, and [product_id], [product_name], [price_usd] what the
    conversation state holds. *)
Definition create_payment_callback (now : string) (oid : string) (uid : Z)
    (product_id product_name : string) (price_usd : Z)
    (currency network : string) (r : create_response) : M Store reply :=
  try_except
    (if bool_decide (price_usd <= 0) then ret Ask_amount
     else
       do invoice <- lift (create_invoice (Some currency) r);
       do amount_crypto <- lift (float (ni_amount invoice));
       let order :=
         DatabaseOrders.mkOrderObject 0 uid product_id product_name price_usd
           amount_crypto
           (if truthy_str (ni_asset invoice)
            then default "" (ni_asset invoice) else currency)
           "" (ni_invoice_id invoice) (ni_url invoice)
           "pending" now None None in
       run DatabaseOrders.create_order order;
       ret (Payment_created (ni_url invoice)))
    (fun _ => ret Creation_error).

End MainPurchase.

Module WebhookStatus.
Import Database.

Open Scope py_scope.

Inductive status_reply : Type :=
| Status_200 (st : string) (amount : Z) (product : string)
| Status_404.

(** The route [/api/status/<order_id>]. *)
Definition check_order_status (oid : string) : M Store status_reply :=
  do order <- get_order oid;
  match order with
  | Some order =>
      ret (Status_200 (status order) (amount_usd order) (product_name order))
  | None => ret Status_404
  end.

End WebhookStatus.

(** ** admin.py: the sweep over the pending orders *)

Module AdminSweep.
Import Database.

Open Scope py_scope.

(** [get_pending_orders]: the pending orders created in the last 24 hours,
    oldest first. The age test and the sort read [created_at] and the clock;
    they are the arguments [recent] and [by_created_at]. *)
Definition get_pending_orders (recent : Order -> bool)
    (by_created_at : list Order -> list Order) : M Store (list Order) :=
  get_connection (fun conn =>
    inr (conn,
         by_created_at
           (List.filter
              (fun o => bool_decide (status o = "pending") && recent o)
              (orders conn)))).

Inductive reply : Type :=
| Not_admin
| Nothing_pending
| Sweep_done (checked confirmed : nat).

(** One turn of the loop, on the two counters; [now] is what
    [datetime.now()] gives in this turn. The whole turn is inside
    [try ... except Exception: pass]. As in [manual_check_payment], building
    the arguments of [create_transaction] raises [AttributeError]:
    [PaymentCheck] has no attribute [currency]. *)
Definition sweep_order (now : string) (gw : gateway)
    (counters : nat * nat) (order : Order) : M Store (nat * nat) :=
  let '(checked, confirmed) := counters in
  try_except
    (do payment <- lift (CryptoBot.check_payment (invoice_id order)
                                                 (gw (invoice_id order)));
     do confirmed <-
       (if CryptoBot.is_paid payment then
          run update_order_status (order_id order) "paid" (Some now);
          run update_user_stats (user_id order) (amount_usd order);
          do present <- transaction_exists (invoice_id order);
          run (if present then ret tt else raise (AttributeError "currency"));
          ret (S confirmed)
        else ret confirmed);
     ret (S checked, confirmed))
    (fun _ => ret (checked, confirmed)).

(** [for order in orders: ...]: the turns of the loop, in order. Each turn
    reads the clock anew (and the loop sleeps between turns): [clock turn]
    is the reading of turn number [turn]. *)
Fixpoint for_each (clock : nat -> string) (gw : gateway) (turn : nat)
    (rows : list Order) (counters : nat * nat) : M Store (nat * nat) :=
  match rows with
  | [] => ret counters
  | order :: rest =>
      do counters <- sweep_order (clock turn) gw counters order;
      for_each clock gw (S turn) rest counters
  end.

Definition check_all_pending (is_admin : bool) (clock : nat -> string)
    (gw : gateway) (recent : Order -> bool)
    (by_created_at : list Order -> list Order) : M Store reply :=
  if negb is_admin then ret Not_admin
  else
    do pending_orders <- get_pending_orders recent by_created_at;
    match pending_orders with
    | [] => ret Nothing_pending
    | _ =>
        do counters <- for_each clock gw 0 pending_orders (0%nat, 0%nat);
        ret (Sweep_done (fst counters) (snd counters))
    end.

(** The gateway call of a turn returned. *)
Definition answered (gw : gateway) (o : Order) : bool :=
  match CryptoBot.check_payment (invoice_id o) (gw (invoice_id o)) with
  | inr _ => true
  | inl _ => false
  end.

(** The gateway call of a turn returned a paid check. *)
Definition reported_paid (gw : gateway) (o : Order) : bool :=
  match CryptoBot.check_payment (invoice_id o) (gw (invoice_id o)) with
  | inr payment => CryptoBot.is_paid payment
  | inl _ => false
  end.

(** The ledger holds a row for the order's invoice. *)
Definition has_ledger_row (ledger : list Transaction) (o : Order) : bool :=
  existsb (fun t => bool_decide (tx_invoice_id t = invoice_id o)) ledger.

(** The two writes of a settled order, at the clock reading [now]. *)
Definition settle (now : string) (db : Store) (o : Order) : Store :=
  mkStore (alter (credit (amount_usd o)) (user_id o) (users db))
          (update_where (order_id o) (with_status_paid_at "paid" (Some now))
                        (orders db))
          (transactions db).

(** The orders of [rows] that the gateway reports paid, settled one after
    the other, each at the clock reading of its own turn; [turn] is the
    number of the first turn. *)
Fixpoint settle_each (clock : nat -> string) (gw : gateway) (turn : nat)
    (rows : list Order) (db : Store) : Store :=
  match rows with
  | [] => db
  | o :: rest =>
      settle_each clock gw (S turn) rest
                  (if reported_paid gw o then settle (clock turn) db o else db)
  end.

End AdminSweep.

(** ** bot.py: what the sweep's gateway call gives for an order *)

Module BotSweep.

(** The call [cryptobot.check_payment(int(order["invoice_id"]))] returned. *)
Definition answered (gw : gateway) (o : Bot.Order) : bool :=
  match Bot.api_check_payment (gw (Bot.invoice_id o)) with
  | inr _ => true
  | inl _ => false
  end.

(** The call returned and [payment["is_paid"]] is true. *)
Definition reported_paid (gw : gateway) (o : Bot.Order) : bool :=
  match Bot.api_check_payment (gw (Bot.invoice_id o)) with
  | inr payment => Bot.p_is_paid payment
  | inl _ => false
  end.

(** The credit of an order's amount to its owner. *)
Definition credit_owner (us : gmap Z Bot.User) (o : Bot.Order)
    : gmap Z Bot.User :=
  alter (Bot.credit (Bot.amount_usd o)) (Bot.user_id o) us.

(** The orders table after a sweep whose first turn has the number [turn]:
    every pending row takes one turn, in table order; a row that the gateway
    reports paid is marked paid with the clock reading of its own turn, every
    other row is as it was. *)
Fixpoint swept (clock : nat -> string) (gw : gateway) (turn : nat)
    (rows : list Bot.Order) : list Bot.Order :=
  match rows with
  | [] => []
  | o :: rest =>
      if Bot.is_pending o
      then (if reported_paid gw o then Bot.mark_paid (clock turn) o else o)
           :: swept clock gw (S turn) rest
      else o :: swept clock gw turn rest
  end.

(** What the by-id [UPDATE]s of the turns over [pending_orders] make of one
    row of the table. *)
Fixpoint stamp (clock : nat -> string) (gw : gateway) (turn : nat)
    (pending_orders : list Bot.Order) (o : Bot.Order) : Bot.Order :=
  match pending_orders with
  | [] => o
  | r :: rest =>
      stamp clock gw (S turn) rest
            (if reported_paid gw r && bool_decide (Bot.id o = Bot.id r)
             then Bot.mark_paid (clock turn) o else o)
  end.

End BotSweep.

(** ** Relations between the store before and after a call *)

(** What no reconciliation touches in an order: everything but its status
    and its paid time. *)
Definition frozen (o : Database.Order)
    : string * Z * string * Z * Z * string * string * Z :=
  (Database.order_id o, Database.user_id o, Database.product_name o,
   Database.amount_usd o, Database.amount_crypto o, Database.currency o,
   Database.network o, Database.invoice_id o).

(** A settlement at time [t], or nothing: the rows of one order id are
    rewritten as paid (with paid time [t] when [t] is a non-empty text, with
    their old paid time otherwise), the owner of a stored order is credited
    with its amount, and the ledger is at most one row longer. *)
Inductive settlement (t : option string) (db : Database.Store)
    : Database.Store -> Prop :=
| settlement_none : settlement t db db
| settlement_paid (order : Database.Order) (oid : string)
    (f : Database.Order -> Database.Order)
    (ledger : list Database.Transaction) :
    order ∈ Database.orders db ->
    (forall o, frozen (f o) = frozen o) ->
    (forall o, Database.status (f o) = "paid") ->
    (forall o, Database.paid_at (f o)
               = if truthy_str t then t else Database.paid_at o) ->
    ledger_step (Database.transactions db) ledger ->
    settlement t db
      (Database.mkStore
         (alter (Database.credit (Database.amount_usd order))
                (Database.user_id order) (Database.users db))
         (Database.update_where oid f (Database.orders db))
         ledger).

(** The effect of one call on the store of the modular bot: a settlement or
    nothing, or the rows of one order id given another status. *)
Inductive effect (db : Database.Store) : Database.Store -> Prop :=
| effect_settlement t db' : settlement t db db' -> effect db db'
| effect_restatus (oid st : string) :
    effect db
      (Database.set_orders
         (Database.update_where oid (Database.with_status st)) db).

(** No user appears or disappears, no name changes, and no aggregate goes
    down. *)
Definition users_grow (before after : gmap Z Database.User) : Prop :=
  forall uid,
    match before !! uid, after !! uid with
    | Some u, Some u' =>
        Database.username u' = Database.username u /\
        Database.first_name u' = Database.first_name u /\
        Database.last_name u' = Database.last_name u /\
        Database.language_code u' = Database.language_code u /\
        Database.total_spent u <= Database.total_spent u' /\
        Database.orders_count u <= Database.orders_count u'
    | None, None => True
    | _, _ => False
    end.

(** An order has a paid time exactly when its status is paid. *)
Definition paid_at_iff_paid (rows : list Database.Order) : Prop :=
  forall o, o ∈ rows ->
    (Database.status o = "paid" <-> is_Some (Database.paid_at o)).

Lemma terminal_not_pending st : terminal st -> st <> "pending".
Proof. intros [-> | [-> | ->]]; discriminate. Qed.

(** Unfolds the store's projections and setters on constructor forms. *)
Ltac store_cbn :=
  cbn [Database.transactions Database.orders Database.set_users
       Database.set_orders Database.set_transactions fst ret].

(** ** Equations of the store methods *)

Section DatabaseEquations.
Import Database.

Lemma get_order_eq oid db :
  get_order oid db = (db, inr (find (has_order_id oid) (orders db))).
Proof. reflexivity. Qed.

Lemma get_order_by_invoice_eq inv db :
  get_order_by_invoice inv db =
  (db, inr (find (fun o => bool_decide (invoice_id o = inv)) (orders db))).
Proof. reflexivity. Qed.

Lemma update_user_stats_eq uid amount db :
  update_user_stats uid amount db =
  (set_users (alter (credit amount) uid) db, inr tt).
Proof. reflexivity. Qed.

Lemma update_order_status_paid_eq oid st now db :
  now <> "" ->
  update_order_status oid st (Some now) db =
  (set_orders (update_where oid (with_status_paid_at st (Some now))) db, inr tt).
Proof.
  intros Hnow. unfold update_order_status, get_connection, truthy_str.
  rewrite bool_decide_eq_false_2 by assumption. reflexivity.
Qed.

Lemma update_order_status_plain_eq oid st db :
  update_order_status oid st None db =
  (set_orders (update_where oid (with_status st)) db, inr tt).
Proof. reflexivity. Qed.

Lemma transaction_exists_eq inv db :
  transaction_exists inv db =
  (db, inr (existsb (fun t => bool_decide (tx_invoice_id t = inv))
                    (transactions db))).
Proof. reflexivity. Qed.

Lemma create_transaction_eq inv oid amount cur net st db :
  create_transaction inv oid amount cur net st db =
  (set_transactions
     (fun rows => rows ++ [mkTransaction inv oid amount cur net st]) db,
   inr (length (transactions db ++ [mkTransaction inv oid amount cur net st]))).
Proof. reflexivity. Qed.

(** A connection commits what its body did, or nothing at all. *)
Lemma get_connection_commit {A} (body : Store -> exn + (Store * A)) db conn a :
  body db = inr (conn, a) -> get_connection body db = (conn, inr a).
Proof. intros H. unfold get_connection. rewrite H. reflexivity. Qed.

Lemma get_connection_rollback {A} (body : Store -> exn + (Store * A)) db e :
  body db = inl e -> get_connection body db = (db, inl e).
Proof. intros H. unfold get_connection. rewrite H. reflexivity. Qed.

(** An [UPDATE ... WHERE order_id = ?] keeps every row's order id, so a
    later lookup finds the updated row. *)
Lemma find_update_where oid oid' f rows :
  (forall o, order_id (f o) = order_id o) ->
  find (has_order_id oid') (update_where oid f rows) =
  (fun o => if has_order_id oid o then f o else o)
    <$> find (has_order_id oid') rows.
Proof.
  intros Hf. unfold update_where.
  induction rows as [|o rows IH]; [reflexivity|].
  cbn [map find].
  assert (Hsame : has_order_id oid'
                    (if has_order_id oid o then f o else o)
                  = has_order_id oid' o).
  { unfold has_order_id. destruct (bool_decide (order_id o = oid));
      [rewrite Hf|]; reflexivity. }
  rewrite Hsame. destruct (has_order_id oid' o); [reflexivity|exact IH].
Qed.

Lemma find_has_order_id oid rows o :
  find (has_order_id oid) rows = Some o -> order_id o = oid.
Proof.
  intros H. apply find_some in H as [_ H].
  unfold has_order_id in H. by apply bool_decide_eq_true_1 in H.
Qed.

End DatabaseEquations.

(** ** The gateway client *)

Section GatewayClient.

Lemma status_map_paid :
  dict_get CryptoBot.status_map "paid" CryptoBot.EXPIRED = CryptoBot.PAID.
Proof. reflexivity. Qed.

Lemma status_map_active :
  dict_get CryptoBot.status_map "active" CryptoBot.EXPIRED = CryptoBot.PENDING.
Proof. reflexivity. Qed.

(** Any status other than "active" and "paid" is read as EXPIRED. *)
Lemma status_map_other st :
  st <> "active" -> st <> "paid" ->
  dict_get CryptoBot.status_map st CryptoBot.EXPIRED = CryptoBot.EXPIRED.
Proof.
  intros Ha Hp. unfold CryptoBot.status_map, dict_get.
  rewrite (bool_decide_eq_false_2 ("active" = st)) by congruence.
  rewrite (bool_decide_eq_false_2 ("paid" = st)) by congruence.
  destruct (bool_decide ("expired" = st)); reflexivity.
Qed.

(** The status is PAID exactly for the provider status "paid". *)
Lemma status_map_is_paid st :
  CryptoBot.is_PAID (dict_get CryptoBot.status_map st CryptoBot.EXPIRED)
  = bool_decide (st = "paid").
Proof.
  destruct (decide (st = "paid")) as [->|Hp].
  - reflexivity.
  - rewrite (bool_decide_eq_false_2 _ Hp).
    destruct (decide (st = "active")) as [->|Ha]; [reflexivity|].
    rewrite status_map_other by assumption. reflexivity.
Qed.

Lemma cryptobot_check_payment_ok inv_id inv :
  CryptoBot.check_payment inv_id (Ok_result inv) =
  inr (CryptoBot.mkPaymentCheck inv_id
         (dict_get CryptoBot.status_map (inv_status inv) CryptoBot.EXPIRED)
         (CryptoBot.float_or_zero (inv_amount inv))
         (default "" (inv_asset inv))
         (bool_decide (inv_status inv = "paid"))
         (CryptoBot.Raw_invoice inv)).
Proof.
  unfold CryptoBot.check_payment, CryptoBot.get_invoice, CryptoBot._make_request.
  rewrite status_map_is_paid. reflexivity.
Qed.

End GatewayClient.

(** ** The poll path of the modular bot *)

Section MainCheckPayment.
Import Database.

(** Whatever the order's current status, a paid report runs the paid
    branch. *)
Lemma main_check_payment_paid now gw oid db order inv :
  now <> "" ->
  find (has_order_id oid) (orders db) = Some order ->
  gw (invoice_id order) = Ok_result inv ->
  inv_status inv = "paid" ->
  Main.check_payment now gw oid db =
  (after_paid now oid order inv db, inr Main.Payment_success).
Proof.
  intros Hnow Hfind Hgw Hst.
  unfold Main.check_payment, bind at 1. rewrite get_order_eq, Hfind.
  unfold try_except, bind at 1, lift.
  rewrite Hgw, cryptobot_check_payment_ok, Hst.
  cbn [CryptoBot.is_paid CryptoBot.pc_amount CryptoBot.pc_asset].
  rewrite bool_decide_eq_true_2 by reflexivity.
  unfold bind. rewrite update_order_status_paid_eq by assumption.
  rewrite update_user_stats_eq, transaction_exists_eq.
  unfold after_paid. cbn [transactions set_users set_orders].
  destruct (existsb _ (transactions db)); reflexivity.
Qed.


End MainCheckPayment.

(** ** Repeated checks of one settled invoice *)

Section RepeatedCheck.
Import Database.

(** The paid branch of the single-file bot's check. *)
Lemma bot_check_payment_paid now gw oid db order inv :
  find (Bot.has_order_id oid) (Bot.orders db) = Some order ->
  gw (Bot.invoice_id order) = Ok_result inv ->
  inv_status inv = "paid" ->
  Bot.check_payment now gw oid db =
  (Bot.exec_insert_transaction
     (Bot.mkTransaction (Some (Bot.invoice_id order)) oid (inv_amount inv)
                        (default "" (inv_asset inv)) "paid")
     (Bot.exec_credit (Bot.user_id order) (Bot.amount_usd order)
        (Bot.exec_mark_paid now oid db)),
   Bot.Payment_success).
Proof.
  intros Hfind Hgw Hst. unfold Bot.check_payment.
  rewrite Hfind, Hgw. unfold Bot.api_check_payment, Bot.get_invoice, Bot._request.
  rewrite Hst. reflexivity.
Qed.

(** The paid branch keeps the fields by which the next check finds the order
    and its owner. *)
Lemma after_paid_find now oid order inv db :
  find (has_order_id oid) (orders db) = Some order ->
  find (has_order_id oid) (orders (after_paid now oid order inv db)) =
  Some (with_status_paid_at "paid" (Some now) order).
Proof.
  intros Hfind.
  assert (Horders : orders (after_paid now oid order inv db) =
                    update_where oid (with_status_paid_at "paid" (Some now))
                                 (orders db)).
  { unfold after_paid. destruct (existsb _ _); reflexivity. }
  rewrite Horders, find_update_where by reflexivity.
  rewrite Hfind. cbn [fmap option_fmap option_map].
  apply find_has_order_id in Hfind. unfold has_order_id.
  rewrite bool_decide_eq_true_2 by assumption. reflexivity.
Qed.

Lemma after_paid_users now oid order inv db :
  users (after_paid now oid order inv db) =
  alter (credit (amount_usd order)) (user_id order) (users db).
Proof. unfold after_paid. destruct (existsb _ _); reflexivity. Qed.

(** Two checks in a row, both answered "paid", credit the owner twice: the
    second check does not look at the order's status. *)
Lemma main_check_payment_twice now1 now2 gw oid db order inv u :
  now1 <> "" -> now2 <> "" ->
  find (has_order_id oid) (orders db) = Some order ->
  users db !! user_id order = Some u ->
  gw (invoice_id order) = Ok_result inv ->
  inv_status inv = "paid" ->
  let db2 := fst ((do _ <- Main.check_payment now1 gw oid;
                   Main.check_payment now2 gw oid)%py db) in
  users db2 !! user_id order =
  Some (credit (amount_usd order) (credit (amount_usd order) u)).
Proof.
  intros H1 H2 Hfind Hu Hgw Hst. unfold bind.
  rewrite (main_check_payment_paid now1 gw oid db order inv) by assumption.
  rewrite (main_check_payment_paid now2 gw oid _
             (with_status_paid_at "paid" (Some now1) order) inv);
    [| assumption | by apply after_paid_find | exact Hgw | assumption ].
  cbn [fst]. rewrite !after_paid_users. cbn [user_id amount_usd with_status_paid_at].
  rewrite !lookup_alter_eq, Hu. reflexivity.
Qed.

(** The single-file bot: the paying [UPDATE] keeps the order findable. *)
Lemma bot_find_after_mark_paid now oid db order :
  find (Bot.has_order_id oid) (Bot.orders db) = Some order ->
  find (Bot.has_order_id oid) (Bot.orders (Bot.exec_mark_paid now oid db)) =
  Some (Bot.mark_paid now order).
Proof.
  unfold Bot.exec_mark_paid. cbn [Bot.orders Bot.set_orders].
  induction (Bot.orders db) as [|o rows IH]; [discriminate|].
  cbn [map find]. destruct (Bot.has_order_id oid o) eqn:Ho.
  - intros [= ->].
    change (Bot.has_order_id oid (Bot.mark_paid now order))
      with (Bot.has_order_id oid order).
    rewrite Ho. reflexivity.
  - rewrite Ho. exact IH.
Qed.

(** There, two checks in a row that are both answered "paid" add two ledger
    rows for the one invoice. *)
Lemma bot_check_payment_twice now1 now2 gw oid db order inv :
  find (Bot.has_order_id oid) (Bot.orders db) = Some order ->
  gw (Bot.invoice_id order) = Ok_result inv ->
  inv_status inv = "paid" ->
  let row := Bot.mkTransaction (Some (Bot.invoice_id order)) oid
                               (inv_amount inv) (default "" (inv_asset inv))
                               "paid" in
  Bot.transactions
    (fst (Bot.check_payment now2 gw oid
            (fst (Bot.check_payment now1 gw oid db)))) =
  Bot.transactions db ++ [row; row].
Proof.
  intros Hfind Hgw Hst row.
  rewrite (bot_check_payment_paid now1 gw oid db order inv) by assumption.
  cbn [fst].
  rewrite (bot_check_payment_paid now2 gw oid _ (Bot.mark_paid now1 order) inv);
    [| by apply bot_find_after_mark_paid | exact Hgw | assumption ].
  cbn. rewrite <- app_assoc. reflexivity.
Qed.

End RepeatedCheck.

(** C1 (the code departs from the claim). Two "I paid" checks in a row on the
    pending order A1, the provider answering "paid" both times: in the
    modular bot the ledger gets one row but the owner is credited twice
    (total 2 x 9.99, two orders counted); in the single-file bot the ledger
    gets two rows for invoice 7 and the owner is credited twice as well. *)
Theorem C1_second_check_credits_again :
  (let db2 :=
     fst ((do _ <- Main.check_payment Scenario.t1 (Scenario.reports "paid") "A1";
           Main.check_payment Scenario.t2 (Scenario.reports "paid") "A1")%py
            Scenario.db_pending) in
   length (Database.transactions db2) = 1%nat /\
   Database.total_spent <$> Database.users db2 !! 42 = Some (999 + 999) /\
   Database.orders_count <$> Database.users db2 !! 42 = Some 2) /\
  (let db2 :=
     fst (Bot.check_payment Scenario.t2 (Scenario.reports "paid") "A1"
            (fst (Bot.check_payment Scenario.t1 (Scenario.reports "paid") "A1"
                    Scenario.bot_pending))) in
   length (Bot.transactions db2) = 2%nat /\
   Bot.total_spent <$> Bot.users db2 !! 42 = Some (999 + 999) /\
   Bot.orders_count <$> Bot.users db2 !! 42 = Some 2).
Proof. vm_compute. repeat split; reflexivity. Qed.

(** ** The simple success scenario and the bulk sweep *)

Section SimpleSuccess.



(** A turn of the sweep never touches the ledger. *)
Lemma sweep_step_transactions now gw acc order :
  Bot.transactions (fst (Bot.sweep_step now gw acc order)) =
  Bot.transactions (fst acc).
Proof.
  destruct acc as [conn [checked confirmed]]. unfold Bot.sweep_step.
  destruct (Bot.api_check_payment _) as [e|payment]; [reflexivity|].
  destruct (Bot.p_is_paid payment); reflexivity.
Qed.

Lemma sweep_transactions clock gw turn rows acc :
  Bot.transactions (fst (Bot.for_each_pending clock gw turn rows acc)) =
  Bot.transactions (fst acc).
Proof.
  revert turn acc.
  induction rows as [|o rows IH]; intros turn acc; [reflexivity|].
  cbn [Bot.for_each_pending]. rewrite IH. apply sweep_step_transactions.
Qed.

(** Whatever the provider answers, the admin sweep of the single-file bot
    leaves the ledger as it found it. *)
Lemma admin_check_all_transactions is_admin clock gw db :
  Bot.transactions (fst (Bot.admin_check_all is_admin clock gw db)) =
  Bot.transactions db.
Proof.
  unfold Bot.admin_check_all. destruct (negb is_admin); [reflexivity|].
  destruct (List.filter Bot.is_pending (Bot.orders db)) as [|o rows] eqn:Hp;
    [reflexivity|].
  pose proof (sweep_transactions clock gw 0 (o :: rows) (db, (0%nat, 0%nat)))
    as H.
  destruct (Bot.for_each_pending _ _ _ _ _) as [conn [checked confirmed]].
  exact H.
Qed.

End SimpleSuccess.

(** C5 (the code departs from the claim). The admin sweep of the single-file
    bot over the pending order A1, the provider answering "paid": the order
    is marked paid with its paid time and the owner is credited 9.99 and one
    order, the sweep counts one confirmation, but no ledger row is recorded.
    The user's own check on the same store records the row. *)
Theorem C5_sweep_records_no_transaction :
  Bot.admin_check_all true (fun _ => Scenario.t1) (Scenario.reports "paid")
                      Scenario.bot_pending =
  (Bot.mkStore {[ 42 := Bot.mkUser (Some "ann") (Some "Ann") 999 1 ]}
               [Scenario.bot_order_A1 "paid" (Some Scenario.t1)]
               [],
   Bot.Sweep_done 1 1) /\
  Bot.check_payment Scenario.t1 (Scenario.reports "paid") "A1"
                    Scenario.bot_pending =
  (Scenario.bot_settled, Bot.Payment_success).
Proof. split; vm_compute; reflexivity. Qed.

(** ** User aggregates across registrations *)

Section Registration.

(** [/start] in the single-file bot rewrites the whole row. *)
Lemma bot_cmd_start_row uid uname fname db :
  Bot.users (fst (Bot.cmd_start uid uname fname db)) !! uid =
  Some (Bot.mkUser uname fname 0 0).
Proof. unfold Bot.cmd_start. cbn. apply lookup_insert_eq. Qed.

(** [/start] in the modular bot leaves a known user's row, and the whole
    store, as they are. *)
Lemma main_cmd_start_known uid uname fname lname lang db u :
  Database.users db !! uid = Some u ->
  Main.cmd_start uid uname fname lname lang db = (db, inr Main.Welcome).
Proof.
  intros Hu. unfold Main.cmd_start, bind, Database.get_or_create_user,
    Database.get_connection.
  rewrite Hu. reflexivity.
Qed.

(** For a new user it adds a row with both aggregates at zero and changes no
    other row. *)
Lemma main_cmd_start_new uid uname fname lname lang db :
  Database.users db !! uid = None ->
  Main.cmd_start uid uname fname lname lang db =
  (Database.set_users
     (insert uid (Database.mkUser uname fname lname lang 0 0)) db,
   inr Main.Welcome).
Proof.
  intros Hu. unfold Main.cmd_start, bind, Database.get_or_create_user,
    Database.get_connection, Database.get_user.
  rewrite Hu. reflexivity.
Qed.

(** Crediting a non-negative amount never lowers an aggregate. *)
Lemma credit_monotone amount u :
  0 <= amount ->
  Database.total_spent u <= Database.total_spent (Database.credit amount u) /\
  Database.orders_count u <= Database.orders_count (Database.credit amount u).
Proof. intros H. cbn. lia. Qed.

End Registration.

(** C8 (the code departs from the claim). In the single-file bot, user 42 has
    spent 9.99 over one order; a repeated [/start] by that user replaces the
    row and both aggregates fall back to zero. *)
Theorem C8_start_resets_aggregates :
  Bot.users Scenario.bot_settled !! 42 =
    Some (Bot.mkUser (Some "ann") (Some "Ann") 999 1) /\
  Bot.users (fst (Bot.cmd_start 42 (Some "ann") (Some "Ann")
                                Scenario.bot_settled)) !! 42 =
    Some (Bot.mkUser (Some "ann") (Some "Ann") 0 0).
Proof. split; vm_compute; reflexivity. Qed.

(** ** Normalisation of the provider's status *)

(** C10, as stated, fails on the single-file bot's client: for an invoice the
    provider cannot find it reports the status "unknown", which is none of
    pending, paid and expired. *)
Lemma C10_bot_client_reports_unknown :
  exists p,
    Bot.api_check_payment (Scenario.not_found 7) = inr p /\
    Bot.p_status p = "unknown" /\
    ~ (Bot.p_status p = "pending" \/ Bot.p_status p = "paid"
       \/ Bot.p_status p = "expired").
Proof.
  eexists. split; [reflexivity|]. split; [reflexivity|].
  cbn. intros [H | [H | H]]; discriminate.
Qed.

(** C10 (amended). The gateway client of [cryptobot.py] turns every answer
    into one of the three members of [PaymentStatus]: "active" is PENDING,
    "paid" is PAID (and only then [is_paid] holds), any other status is
    EXPIRED, and an invoice the provider cannot find (an error whose message
    contains INVOICE_NOT_FOUND) is an EXPIRED, unpaid check rather than an
    error. The client inside [bot.py] has a fourth value: it reports
    "unknown" when the provider's answer is not ok and when the status is
    none of active, paid and expired. *)
Theorem C10_client_normalizes_status :
  (forall inv_id inv p,
     CryptoBot.check_payment inv_id (Ok_result inv) = inr p ->
     (inv_status inv = "active" -> CryptoBot.pc_status p = CryptoBot.PENDING) /\
     (inv_status inv = "paid" -> CryptoBot.pc_status p = CryptoBot.PAID) /\
     (inv_status inv <> "active" -> inv_status inv <> "paid" ->
      CryptoBot.pc_status p = CryptoBot.EXPIRED) /\
     CryptoBot.is_paid p = bool_decide (inv_status inv = "paid")) /\
  (forall inv_id message,
     str_contains "INVOICE_NOT_FOUND" message = true ->
     CryptoBot.check_payment inv_id (Not_ok (Some message)) =
     inr (CryptoBot.mkPaymentCheck inv_id CryptoBot.EXPIRED 0 "" false
                                   CryptoBot.Raw_empty)) /\
  (forall message,
     Bot.api_check_payment (Not_ok message) =
     inr (Bot.mkPayment "unknown" false None None)) /\
  (forall inv p,
     Bot.api_check_payment (Ok_result inv) = inr p ->
     inv_status inv <> "active" -> inv_status inv <> "paid" ->
     inv_status inv <> "expired" ->
     Bot.p_status p = "unknown" /\ Bot.p_is_paid p = false).
Proof.
  repeat split.
  - intros Ha. rewrite cryptobot_check_payment_ok in H. injection H as <-.
    cbn. rewrite Ha. reflexivity.
  - intros Hp. rewrite cryptobot_check_payment_ok in H. injection H as <-.
    cbn. rewrite Hp. reflexivity.
  - intros Ha Hp. rewrite cryptobot_check_payment_ok in H. injection H as <-.
    cbn [CryptoBot.pc_status]. by apply status_map_other.
  - rewrite cryptobot_check_payment_ok in H. injection H as <-. reflexivity.
  - intros inv_id message Hm.
    unfold CryptoBot.check_payment, CryptoBot.get_invoice,
      CryptoBot._make_request.
    cbn -[str_contains]. rewrite Hm. reflexivity.
  - injection H as <-. cbn [Bot.p_status].
    unfold Bot.status_map, dict_get.
    rewrite (bool_decide_eq_false_2 ("active" = inv_status inv)) by congruence.
    rewrite (bool_decide_eq_false_2 ("paid" = inv_status inv)) by congruence.
    rewrite (bool_decide_eq_false_2 ("expired" = inv_status inv)) by congruence.
    reflexivity.
  - injection H as <-. cbn [Bot.p_status Bot.p_is_paid].
    unfold Bot.status_map, dict_get.
    rewrite (bool_decide_eq_false_2 ("active" = inv_status inv)) by congruence.
    rewrite (bool_decide_eq_false_2 ("paid" = inv_status inv)) by congruence.
    rewrite (bool_decide_eq_false_2 ("expired" = inv_status inv)) by congruence.
    reflexivity.
Qed.

(** The amended claim at work: a provider status outside the three known ones
    ("cancelled") seen by both clients, and an invoice the provider does not
    know. *)
Lemma C10_client_normalizes_status_witness :
  let inv := mkInvoice "cancelled" (Numeric 999) (Some "USDT") in
  let p := CryptoBot.mkPaymentCheck 7 CryptoBot.EXPIRED 999 "USDT" false
                                    (CryptoBot.Raw_invoice inv) in
  let q := Bot.mkPayment "unknown" false (Some (Numeric 999)) (Some "USDT") in
  (CryptoBot.check_payment 7 (Ok_result inv) = inr p /\
   CryptoBot.pc_status p = CryptoBot.EXPIRED /\
   CryptoBot.is_paid p = false) /\
  CryptoBot.check_payment 7 (Scenario.not_found 7) =
    inr (CryptoBot.mkPaymentCheck 7 CryptoBot.EXPIRED 0 "" false
                                  CryptoBot.Raw_empty) /\
  (Bot.api_check_payment (Ok_result inv) = inr q /\
   Bot.p_status q = "unknown" /\ Bot.p_is_paid q = false).
Proof.
  intros inv p q.
  destruct C10_client_normalizes_status as (Hmod & Hmissing & _ & Hbot).
  split; [|split].
  - destruct (Hmod 7 inv p eq_refl) as (_ & _ & Hother & Hflag).
    split; [reflexivity|]. split; [|exact Hflag].
    apply Hother; cbn; discriminate.
  - apply (Hmissing 7 "INVOICE_NOT_FOUND"). reflexivity.
  - split; [reflexivity|].
    apply (Hbot inv q eq_refl); cbn; discriminate.
Defined.

(** ** The ledger and the invoice id *)

Section Ledger.
Import Database.

Lemma main_check_payment_ledger now gw oid db :
  ledger_step (transactions db)
              (transactions (fst (Main.check_payment now gw oid db))).
Proof.
  unfold Main.check_payment, bind at 1. rewrite get_order_eq.
  destruct (find _ _) as [order|]; [|left; reflexivity].
  unfold try_except, bind at 1, lift.
  destruct (CryptoBot.check_payment _ _) as [e|payment]; [left; reflexivity|].
  destruct (CryptoBot.is_paid payment); [|left; reflexivity].
  unfold bind, update_order_status, update_user_stats, transaction_exists,
    create_transaction, get_connection.
  destruct (truthy_str (Some now));
    store_cbn;
    destruct (existsb _ (transactions db)) eqn:Hex;
    store_cbn;
    first [ left; reflexivity
          | right; eexists; split; [reflexivity | exact Hex] ].
Qed.

Lemma locate_store oid inv db : fst (Webhook.locate oid inv db) = db.
Proof.
  unfold Webhook.locate, bind.
  destruct (truthy_str oid); cbn.
  - destruct (find _ _); [reflexivity|]. destruct inv; reflexivity.
  - destruct inv; reflexivity.
Qed.

Lemma locate_ok oid inv db : exists o, Webhook.locate oid inv db = (db, inr o).
Proof.
  unfold Webhook.locate, bind.
  destruct (truthy_str oid); cbn.
  - destruct (find _ _); [eexists; reflexivity|].
    destruct inv; eexists; reflexivity.
  - destruct inv; eexists; reflexivity.
Qed.

Lemma webhook_paid_ledger now payload db :
  ledger_step (transactions db)
              (transactions (fst (Webhook._handle_invoice_paid now payload db))).
Proof.
  unfold Webhook._handle_invoice_paid, try_except.
  destruct payload as [data|]; [|left; reflexivity].
  destruct (negb (truthy_int (ev_invoice_id data))); [left; reflexivity|].
  unfold bind at 1.
  destruct (locate_ok (ev_payload data) (ev_invoice_id data) db) as [o ->].
  destruct o as [order|]; [|left; reflexivity].
  destruct (bool_decide (status order = "paid")); [left; reflexivity|].
  unfold bind, update_order_status, update_user_stats, transaction_exists,
    create_transaction, get_connection, lift, Webhook.float_amount.
  destruct (truthy_str (Some now));
    store_cbn;
    destruct (existsb _ (transactions db)) eqn:Hex;
    store_cbn;
    try (left; reflexivity);
    destruct (ev_amount data) as [[a|]|];
    store_cbn;
    first [ left; reflexivity
          | right; eexists; split; [reflexivity | exact Hex] ].
Qed.

Lemma existsb_invoice_false inv rows :
  existsb (fun t => bool_decide (tx_invoice_id t = inv)) rows = false ->
  inv ∉ map tx_invoice_id rows.
Proof.
  intros Hex Hin. apply list_elem_of_In, in_map_iff in Hin as (t & Ht & Hin).
  assert (Htrue : existsb (fun t => bool_decide (tx_invoice_id t = inv)) rows
                  = true).
  { apply existsb_exists. exists t. split; [exact Hin|].
    by apply bool_decide_eq_true_2. }
  congruence.
Qed.

Lemma ledger_step_keeps_one_row before after :
  ledger_step before after ->
  one_row_per_invoice before -> one_row_per_invoice after.
Proof.
  unfold one_row_per_invoice.
  intros [-> | (row & -> & Hex)] Hnd; [exact Hnd|].
  rewrite map_app. cbn [map]. apply NoDup_app. split; [exact Hnd|].
  split; [|apply NoDup_singleton].
  intros x Hx Hx'. apply list_elem_of_singleton in Hx' as ->.
  by apply existsb_invoice_false in Hex.
Qed.

End Ledger.

(** C3, as stated, fails: the ledger already holds a row for invoice 7, and a
    second insert with invoice id 7 is accepted (it returns row id 2), leaving
    two rows with the same invoice id. *)
Lemma C3_second_insert_accepted :
  map Database.tx_invoice_id (Database.transactions Scenario.db_settled) = [7] /\
  let '(db', r) :=
    Database.create_transaction 7 "B2" 500 "TON" "" "paid" Scenario.db_settled in
  r = inr 2%nat /\
  map Database.tx_invoice_id (Database.transactions db') = [7; 7].
Proof. vm_compute. repeat split; reflexivity. Qed.

(** C3 (amended). The store declares no uniqueness on a Transaction's invoice
    id: [create_transaction] always appends its row. One row per invoice id
    is kept by the callers instead: the paths of the modular bot that insert
    ([main.check_payment] and [webhook._handle_invoice_paid]) ask
    [transaction_exists] first and skip the insert when a row with that
    invoice id is present, so a ledger without two rows of the same invoice
    id stays so through each of them, whatever the call. *)
Theorem C3_guarded_insert_keeps_one_row_per_invoice :
  (forall inv oid amount cur net st db,
     Database.transactions
       (fst (Database.create_transaction inv oid amount cur net st db)) =
     Database.transactions db
       ++ [Database.mkTransaction inv oid amount cur net st]) /\
  (forall now gw oid db,
     one_row_per_invoice (Database.transactions db) ->
     one_row_per_invoice
       (Database.transactions (fst (Main.check_payment now gw oid db)))) /\
  (forall now payload db,
     one_row_per_invoice (Database.transactions db) ->
     one_row_per_invoice
       (Database.transactions
          (fst (Webhook._handle_invoice_paid now payload db)))).
Proof.
  split; [reflexivity|]. split.
  - intros now gw oid db. apply ledger_step_keeps_one_row,
      main_check_payment_ledger.
  - intros now payload db. apply ledger_step_keeps_one_row,
      webhook_paid_ledger.
Qed.

(** The amended claim at work: the settled store has one row for invoice 7;
    a further check answered "paid" and a further paid update for the same
    invoice both leave it with one. *)
Lemma C3_guarded_insert_keeps_one_row_per_invoice_witness :
  one_row_per_invoice (Database.transactions Scenario.db_settled) /\
  one_row_per_invoice
    (Database.transactions
       (fst (Main.check_payment Scenario.t2 (Scenario.reports "paid") "A1"
                                Scenario.db_settled))) /\
  one_row_per_invoice
    (Database.transactions
       (fst (Webhook._handle_invoice_paid Scenario.t2 (Some Scenario.update_paid)
                                          Scenario.db_settled))).
Proof.
  assert (H : one_row_per_invoice (Database.transactions Scenario.db_settled)).
  { unfold one_row_per_invoice. cbn. apply NoDup_singleton. }
  split; [exact H|]. split.
  - apply (proj1 (proj2 C3_guarded_insert_keeps_one_row_per_invoice)). exact H.
  - apply (proj2 (proj2 C3_guarded_insert_keeps_one_row_per_invoice)). exact H.
Defined.

(** ** Reports other than "paid" *)

Section NotPaid.



(** A check that is not paid, whatever else it says, changes nothing. *)
Lemma main_check_payment_unpaid now gw oid db order p :
  find (Database.has_order_id oid) (Database.orders db) = Some order ->
  CryptoBot.check_payment (Database.invoice_id order)
                          (gw (Database.invoice_id order)) = inr p ->
  CryptoBot.is_paid p = false ->
  Main.check_payment now gw oid db =
  (db, inr (Main.Payment_not_paid
              (dict_get Main.status_text
                 (CryptoBot.raw_status (CryptoBot.raw_response p) "")
                 "неизвестен"))).
Proof.
  intros Hfind Hp Hpaid.
  unfold Main.check_payment, bind at 1. rewrite get_order_eq, Hfind.
  unfold try_except, bind at 1, lift. rewrite Hp, Hpaid. reflexivity.
Qed.

End NotPaid.


(** ** Cancellation *)

Section Cancel.

Lemma main_cancel_pending oid db order :
  find (Database.has_order_id oid) (Database.orders db) = Some order ->
  Database.status order = "pending" ->
  Main.cancel_payment oid db =
  (Database.set_orders
     (Database.update_where oid (Database.with_status "cancelled")) db,
   inr Main.Order_cancelled).
Proof.
  intros Hfind Hst. unfold Main.cancel_payment, bind at 1.
  rewrite get_order_eq, Hfind, Hst. reflexivity.
Qed.

Lemma main_cancel_not_pending oid db order :
  find (Database.has_order_id oid) (Database.orders db) = Some order ->
  Database.status order <> "pending" ->
  Main.cancel_payment oid db = (db, inr Main.Already_processed).
Proof.
  intros Hfind Hst. unfold Main.cancel_payment, bind at 1.
  rewrite get_order_eq, Hfind.
  rewrite (bool_decide_eq_false_2 _ Hst). reflexivity.
Qed.

Lemma bot_cancel_pending oid db order :
  find (Bot.has_order_id oid) (Bot.orders db) = Some order ->
  Bot.status order = "pending" ->
  Bot.cancel_order oid db =
  (Bot.set_orders
     (map (fun o => if Bot.has_order_id oid o then Bot.mark_cancelled o else o))
     db,
   Bot.Order_cancelled).
Proof.
  intros Hfind Hst. unfold Bot.cancel_order. rewrite Hfind, Hst. reflexivity.
Qed.

Lemma bot_cancel_not_pending oid db order :
  find (Bot.has_order_id oid) (Bot.orders db) = Some order ->
  Bot.status order <> "pending" ->
  Bot.cancel_order oid db = (db, Bot.Already_processed).
Proof.
  intros Hfind Hst. unfold Bot.cancel_order. rewrite Hfind.
  rewrite (bool_decide_eq_false_2 _ Hst). reflexivity.
Qed.

Lemma admin_cancel_any oid db order :
  find (Database.has_order_id oid) (Database.orders db) = Some order ->
  Admin.manual_cancel_order oid db =
  (Database.set_orders
     (Database.update_where oid (Database.with_status "cancelled")) db,
   inr Admin.Order_cancelled).
Proof.
  intros Hfind. unfold Admin.manual_cancel_order, bind at 1.
  rewrite get_order_eq, Hfind. reflexivity.
Qed.

(** After the cancelling [UPDATE], the order is found cancelled. *)
Lemma find_after_cancel oid db order :
  find (Database.has_order_id oid) (Database.orders db) = Some order ->
  find (Database.has_order_id oid)
       (Database.orders
          (Database.set_orders
             (Database.update_where oid (Database.with_status "cancelled")) db))
  = Some (Database.with_status "cancelled" order).
Proof.
  intros Hfind. cbn [Database.orders Database.set_orders].
  rewrite find_update_where by reflexivity. rewrite Hfind.
  cbn [fmap option_fmap option_map].
  apply find_has_order_id in Hfind. unfold Database.has_order_id.
  rewrite bool_decide_eq_true_2 by assumption. reflexivity.
Qed.

End Cancel.

(** C7 (the code departs from the claim). The admin's cancel has no status
    check. The settled order A1 (paid at [t1], its owner credited 9.99 and
    one order, one ledger row) is cancelled without any denial: its status
    goes from paid to cancelled while its paid time, the owner's credit and
    the ledger row stay. The user's cancel on the same store, in either bot,
    is refused as already processed and changes nothing. *)
Theorem C7_admin_cancel_overrides_paid_order :
  Database.status <$> find (Database.has_order_id "A1")
                           (Database.orders Scenario.db_settled)
    = Some "paid" /\
  Admin.manual_cancel_order "A1" Scenario.db_settled =
    (Database.mkStore
       (Database.users Scenario.db_settled)
       [Scenario.order_A1 "cancelled" (Some Scenario.t1)]
       (Database.transactions Scenario.db_settled),
     inr Admin.Order_cancelled) /\
  Database.total_spent <$> Database.users Scenario.db_settled !! 42
    = Some 999 /\
  length (Database.transactions Scenario.db_settled) = 1%nat /\
  Main.cancel_payment "A1" Scenario.db_settled
    = (Scenario.db_settled, inr Main.Already_processed) /\
  Bot.cancel_order "A1" Scenario.bot_settled
    = (Scenario.bot_settled, Bot.Already_processed).
Proof. vm_compute. repeat split; reflexivity. Qed.

(** The user's cancel, in both bots, is allowed only on a pending order:
    there it sets the status to cancelled and touches neither the users nor
    the ledger; on an order in any other status it changes nothing and
    answers that the order is already processed. *)
Theorem user_cancel_only_when_pending :
  (forall oid db order,
     find (Database.has_order_id oid) (Database.orders db) = Some order ->
     Database.status order = "pending" ->
     let '(db', r) := Main.cancel_payment oid db in
     r = inr Main.Order_cancelled /\
     find (Database.has_order_id oid) (Database.orders db')
       = Some (Database.with_status "cancelled" order) /\
     Database.users db' = Database.users db /\
     Database.transactions db' = Database.transactions db) /\
  (forall oid db order,
     find (Database.has_order_id oid) (Database.orders db) = Some order ->
     Database.status order <> "pending" ->
     Main.cancel_payment oid db = (db, inr Main.Already_processed)) /\
  (forall oid db order,
     find (Bot.has_order_id oid) (Bot.orders db) = Some order ->
     Bot.status order = "pending" ->
     let '(db', r) := Bot.cancel_order oid db in
     r = Bot.Order_cancelled /\
     Bot.orders db' =
       map (fun o => if Bot.has_order_id oid o then Bot.mark_cancelled o else o)
           (Bot.orders db) /\
     Bot.users db' = Bot.users db /\
     Bot.transactions db' = Bot.transactions db) /\
  (forall oid db order,
     find (Bot.has_order_id oid) (Bot.orders db) = Some order ->
     Bot.status order <> "pending" ->
     Bot.cancel_order oid db = (db, Bot.Already_processed)).
Proof.
  split; [|split; [|split]].
  - intros oid db order Hfind Hst.
    rewrite (main_cancel_pending oid db order Hfind Hst).
    split; [reflexivity|]. split; [by apply find_after_cancel|].
    split; reflexivity.
  - apply main_cancel_not_pending.
  - intros oid db order Hfind Hst.
    rewrite (bot_cancel_pending oid db order Hfind Hst).
    repeat split; reflexivity.
  - apply bot_cancel_not_pending.
Qed.

Lemma user_cancel_only_when_pending_witness :
  (let '(db', r) := Main.cancel_payment "A1" Scenario.db_pending in
   r = inr Main.Order_cancelled /\
   find (Database.has_order_id "A1") (Database.orders db')
     = Some (Scenario.order_A1 "cancelled" None) /\
   Database.users db' = Database.users Scenario.db_pending /\
   Database.transactions db' = Database.transactions Scenario.db_pending) /\
  Main.cancel_payment "A1" Scenario.db_settled
    = (Scenario.db_settled, inr Main.Already_processed) /\
  (let '(db', r) := Bot.cancel_order "A1" Scenario.bot_pending in
   r = Bot.Order_cancelled /\
   Bot.orders db' = [Scenario.bot_order_A1 "cancelled" None] /\
   Bot.users db' = Bot.users Scenario.bot_pending /\
   Bot.transactions db' = Bot.transactions Scenario.bot_pending) /\
  Bot.cancel_order "A1" Scenario.bot_settled
    = (Scenario.bot_settled, Bot.Already_processed).
Proof.
  destruct user_cancel_only_when_pending as (Hmain & Hmain' & Hbot & Hbot').
  split; [|split; [|split]].
  - exact (Hmain "A1" Scenario.db_pending (Scenario.order_A1 "pending" None)
             eq_refl eq_refl).
  - apply (Hmain' "A1" Scenario.db_settled
             (Scenario.order_A1 "paid" (Some Scenario.t1)));
      [reflexivity | cbn; discriminate].
  - exact (Hbot "A1" Scenario.bot_pending (Scenario.bot_order_A1 "pending" None)
             eq_refl eq_refl).
  - apply (Hbot' "A1" Scenario.bot_settled
             (Scenario.bot_order_A1 "paid" (Some Scenario.t1)));
      [reflexivity | cbn; discriminate].
Defined.

(** ** Transport failures *)

Section Transport.

(** The words the client puts before the transport error's text do not
    contain the not-found marker. *)
Lemma network_error_marker text :
  str_contains "INVOICE_NOT_FOUND" ("Network error: " +:+ text) =
  str_contains "INVOICE_NOT_FOUND" text.
Proof. reflexivity. Qed.

(** A transport failure leaves the client by an exception. *)
Lemma cryptobot_check_payment_client_error inv_id text :
  str_contains "INVOICE_NOT_FOUND" text = false ->
  CryptoBot.check_payment inv_id (Client_error text) =
  inl (CryptoBotError ("Network error: " +:+ text)).
Proof.
  intros Hm. unfold CryptoBot.check_payment, CryptoBot.get_invoice,
    CryptoBot._make_request.
  rewrite network_error_marker, Hm. reflexivity.
Qed.

(** Whatever the client raises, the handler answers with the check error and
    the store is as before. *)
Lemma main_check_payment_raises now gw oid db order e :
  find (Database.has_order_id oid) (Database.orders db) = Some order ->
  CryptoBot.check_payment (Database.invoice_id order)
                          (gw (Database.invoice_id order)) = inl e ->
  Main.check_payment now gw oid db = (db, inr Main.Check_error).
Proof.
  intros Hfind He.
  unfold Main.check_payment, bind at 1. rewrite get_order_eq, Hfind.
  unfold try_except, bind at 1, lift. rewrite He. reflexivity.
Qed.

(** A transport failure whose text quotes the provider's not-found code is
    taken for an invoice that is not found. *)
Lemma cryptobot_check_payment_client_error_marked inv_id text :
  str_contains "INVOICE_NOT_FOUND" text = true ->
  CryptoBot.check_payment inv_id (Client_error text) =
  inr (CryptoBot.mkPaymentCheck inv_id CryptoBot.EXPIRED 0 "" false
                                CryptoBot.Raw_empty).
Proof.
  intros Hm. unfold CryptoBot.check_payment, CryptoBot.get_invoice,
    CryptoBot._make_request.
  rewrite network_error_marker, Hm. reflexivity.
Qed.

(** The synchronous check, which no handler calls, folds every exception of
    its round trip into an EXPIRED, unpaid check. *)
Lemma check_payment_sync_raised inv_id text :
  CryptoBot.check_payment_sync inv_id (Sync_raised text) =
  CryptoBot.mkPaymentCheck inv_id CryptoBot.EXPIRED 0 (Some "") false
                           (CryptoBot.Raw_error text).
Proof. reflexivity. Qed.


End Transport.

(** C9 (the code departs from the claim). The synchronous check turns a
    transport error into a check whose status is EXPIRED, where the
    asynchronous check of the same client raises; and the asynchronous check
    takes a transport error whose text quotes INVOICE_NOT_FOUND for an
    invoice that is not found, so that the user's check answers "not paid"
    instead of the check error. In neither case is the store touched. *)
Theorem C9_transport_error_reported_as_expired :
  CryptoBot.check_payment_sync 7
    (Sync_raised "Cannot connect to host pay.crypt.bot:443") =
    CryptoBot.mkPaymentCheck 7 CryptoBot.EXPIRED 0 (Some "") false
      (CryptoBot.Raw_error "Cannot connect to host pay.crypt.bot:443") /\
  CryptoBot.check_payment 7 (Scenario.unreachable 7) =
    inl (CryptoBotError
           "Network error: Cannot connect to host pay.crypt.bot:443") /\
  CryptoBot.check_payment 7 (Client_error "500, message='INVOICE_NOT_FOUND'")
    = inr (CryptoBot.mkPaymentCheck 7 CryptoBot.EXPIRED 0 "" false
                                    CryptoBot.Raw_empty) /\
  Main.check_payment Scenario.t1
    (fun _ => Client_error "500, message='INVOICE_NOT_FOUND'") "A1"
    Scenario.db_pending
    = (Scenario.db_pending, inr (Main.Payment_not_paid "неизвестен")).
Proof. vm_compute. repeat split; reflexivity. Qed.

(** When the round trip to the gateway fails in transport, the user's check
    mutates nothing: the orders, the users and the ledger are as before, so
    no order becomes expired or cancelled. In the modular bot it answers with
    the check error, unless the error's text quotes the provider's not-found
    code, in which case it answers "not paid"; any other failure of the call
    gives the check error; the single-file bot always answers with the check
    error. *)
Theorem transport_error_changes_nothing :
  (forall now gw oid db order text,
     find (Database.has_order_id oid) (Database.orders db) = Some order ->
     gw (Database.invoice_id order) = Client_error text ->
     Main.check_payment now gw oid db =
     (db, inr (if str_contains "INVOICE_NOT_FOUND" text
               then Main.Payment_not_paid "неизвестен"
               else Main.Check_error))) /\
  (forall now gw oid db order description,
     find (Database.has_order_id oid) (Database.orders db) = Some order ->
     gw (Database.invoice_id order) = Other_failure description ->
     Main.check_payment now gw oid db = (db, inr Main.Check_error)) /\
  (forall now gw oid db order text,
     find (Bot.has_order_id oid) (Bot.orders db) = Some order ->
     gw (Bot.invoice_id order) = Client_error text ->
     Bot.check_payment now gw oid db = (db, Bot.Check_error)).
Proof.
  split; [|split].
  - intros now gw oid db order text Hfind Hgw.
    destruct (str_contains "INVOICE_NOT_FOUND" text) eqn:Hm.
    + rewrite (main_check_payment_unpaid now gw oid db order
                 (CryptoBot.mkPaymentCheck (Database.invoice_id order)
                    CryptoBot.EXPIRED 0 "" false CryptoBot.Raw_empty) Hfind);
        [reflexivity| |reflexivity].
      rewrite Hgw. by apply cryptobot_check_payment_client_error_marked.
    + eapply main_check_payment_raises; [exact Hfind|].
      rewrite Hgw. by apply cryptobot_check_payment_client_error.
  - intros now gw oid db order description Hfind Hgw.
    apply (main_check_payment_raises now gw oid db order
             (OtherException description) Hfind).
    rewrite Hgw. reflexivity.
  - intros now gw oid db order text Hfind Hgw.
    unfold Bot.check_payment. rewrite Hfind, Hgw. reflexivity.
Qed.

Lemma transport_error_changes_nothing_witness :
  Main.check_payment Scenario.t1 Scenario.unreachable "A1" Scenario.db_pending
    = (Scenario.db_pending, inr Main.Check_error) /\
  Main.check_payment Scenario.t1 (fun _ => Other_failure "TimeoutError") "A1"
                     Scenario.db_pending
    = (Scenario.db_pending, inr Main.Check_error) /\
  Bot.check_payment Scenario.t1 Scenario.unreachable "A1" Scenario.bot_pending
    = (Scenario.bot_pending, Bot.Check_error).
Proof.
  destruct transport_error_changes_nothing as (Hmain & Hother & Hbot).
  split; [|split].
  - apply (Hmain Scenario.t1 Scenario.unreachable "A1" Scenario.db_pending
             (Scenario.order_A1 "pending" None)
             "Cannot connect to host pay.crypt.bot:443");
      reflexivity.
  - apply (Hother Scenario.t1 (fun _ => Other_failure "TimeoutError") "A1"
             Scenario.db_pending (Scenario.order_A1 "pending" None)
             "TimeoutError");
      reflexivity.
  - apply (Hbot Scenario.t1 Scenario.unreachable "A1" Scenario.bot_pending
             (Scenario.bot_order_A1 "pending" None)
             "Cannot connect to host pay.crypt.bot:443");
      reflexivity.
Defined.

(** ** Orders in a terminal status *)

Section Terminal.

Lemma admin_check_not_pending now gw oid db order :
  find (Database.has_order_id oid) (Database.orders db) = Some order ->
  Database.status order <> "pending" ->
  Admin.manual_check_payment now gw oid db =
  (db, inr (Admin.Status_already (Database.status order))).
Proof.
  intros Hfind Hst. unfold Admin.manual_check_payment, bind at 1.
  rewrite get_order_eq, Hfind.
  rewrite (bool_decide_eq_false_2 _ Hst). reflexivity.
Qed.

Lemma bot_webhook_not_pending now update_type data db oid order :
  ev_payload data = Some oid ->
  find (Bot.has_order_id oid) (Bot.orders db) = Some order ->
  Bot.status order <> "pending" ->
  Bot.webhook now (Update update_type (Some data)) db = (db, Bot.Ok_200).
Proof.
  intros Hpayload Hfind Hst. unfold Bot.webhook.
  destruct (bool_decide (update_type = Some "invoice_paid")); [|reflexivity].
  cbn [default from_option id]. rewrite Hpayload. cbn [from_option id].
  destruct (truthy_str (Some oid)); [|reflexivity].
  rewrite Hfind. rewrite (bool_decide_eq_false_2 _ Hst). reflexivity.
Qed.

Lemma webhook_paid_already_paid now data db inv order :
  ev_invoice_id data = Some inv -> inv <> 0 ->
  Webhook.locate (ev_payload data) (Some inv) db = (db, inr (Some order)) ->
  Database.status order = "paid" ->
  Webhook._handle_invoice_paid now (Some data) db =
  (db, inr Webhook.Already_processed_200).
Proof.
  intros Hinv Hnz Hloc Hst. unfold Webhook._handle_invoice_paid, try_except.
  rewrite Hinv. unfold truthy_int.
  rewrite (bool_decide_eq_false_2 _ Hnz). cbn [negb].
  unfold bind at 1. rewrite Hloc, Hst. reflexivity.
Qed.

Lemma admin_confirm_transactions now oid db :
  Database.transactions (fst (Admin.manual_confirm_order now oid db)) =
  Database.transactions db.
Proof.
  unfold Admin.manual_confirm_order, bind at 1. rewrite get_order_eq.
  destruct (find _ _) as [order|]; [|reflexivity].
  unfold bind, Database.update_order_status, Database.update_user_stats,
    Database.get_connection.
  destruct (truthy_str (Some now)); reflexivity.
Qed.

End Terminal.

(** C2 (the code departs from the claim). Order A1 is cancelled, a terminal
    status. A paid event delivered to the webhook of the modular bot, whose
    guard only asks whether the order is already paid, turns it paid, credits
    its owner 9.99 and one order and writes a Transaction for it. The admin's
    manual confirm, which has no guard at all, turns it paid and credits its
    owner as well; repeated on the settled order it credits the owner a
    second time. The webhook of the single-file bot, which asks for a pending
    order, leaves the cancelled order as it is. *)
Theorem C2_terminal_order_is_revived :
  terminal "cancelled" /\
  Webhook._handle_webhook Scenario.t2
    (Update (Some "invoice_paid") (Some Scenario.update_paid))
    (Scenario.db_with "cancelled" None) =
    (Database.mkStore
       {[ 42 := Database.mkUser (Some "ann") (Some "Ann") None (Some "ru")
                                999 1 ]}
       [Scenario.order_A1 "paid" (Some Scenario.t2)]
       [Database.mkTransaction 7 "A1" 999 "USDT" "" "paid"],
     inr Webhook.Ok_200) /\
  Admin.manual_confirm_order Scenario.t2 "A1"
    (Scenario.db_with "cancelled" None) =
    (Database.mkStore
       {[ 42 := Database.mkUser (Some "ann") (Some "Ann") None (Some "ru")
                                999 1 ]}
       [Scenario.order_A1 "paid" (Some Scenario.t2)]
       [],
     inr Admin.Order_confirmed) /\
  Admin.manual_confirm_order Scenario.t2 "A1" Scenario.db_settled =
    (Database.mkStore
       {[ 42 := Database.mkUser (Some "ann") (Some "Ann") None (Some "ru")
                                (999 + 999) 2 ]}
       [Scenario.order_A1 "paid" (Some Scenario.t2)]
       (Database.transactions Scenario.db_settled),
     inr Admin.Order_confirmed) /\
  (let db := Bot.mkStore {[ 42 := Scenario.bot_ann ]}
                         [Scenario.bot_order_A1 "cancelled" None] [] in
   Bot.webhook Scenario.t2
     (Update (Some "invoice_paid") (Some Scenario.update_paid)) db
   = (db, Bot.Ok_200)).
Proof.
  split; [right; left; reflexivity|].
  vm_compute. repeat split; reflexivity.
Qed.

(** Once an order's status is terminal, the guarded operations leave the
    whole store (orders, users, ledger) as it is: the user's cancel in both
    bots, the admin's forced check, and the paid event of the single-file
    bot's webhook; the paid event of the modular bot's webhook does so for
    an order that is already paid. *)
Theorem terminal_orders_under_guarded_operations :
  (forall oid db order,
     find (Database.has_order_id oid) (Database.orders db) = Some order ->
     terminal (Database.status order) ->
     Main.cancel_payment oid db = (db, inr Main.Already_processed)) /\
  (forall now gw oid db order,
     find (Database.has_order_id oid) (Database.orders db) = Some order ->
     terminal (Database.status order) ->
     Admin.manual_check_payment now gw oid db =
     (db, inr (Admin.Status_already (Database.status order)))) /\
  (forall oid db order,
     find (Bot.has_order_id oid) (Bot.orders db) = Some order ->
     terminal (Bot.status order) ->
     Bot.cancel_order oid db = (db, Bot.Already_processed)) /\
  (forall now update_type data db oid order,
     ev_payload data = Some oid ->
     find (Bot.has_order_id oid) (Bot.orders db) = Some order ->
     terminal (Bot.status order) ->
     Bot.webhook now (Update update_type (Some data)) db = (db, Bot.Ok_200)) /\
  (forall now data db inv order,
     ev_invoice_id data = Some inv -> inv <> 0 ->
     Webhook.locate (ev_payload data) (Some inv) db = (db, inr (Some order)) ->
     Database.status order = "paid" ->
     Webhook._handle_invoice_paid now (Some data) db =
     (db, inr Webhook.Already_processed_200)).
Proof.
  split; [|split; [|split; [|split]]].
  - intros oid db order Hfind Hterm.
    apply (main_cancel_not_pending oid db order Hfind).
    by apply terminal_not_pending.
  - intros now gw oid db order Hfind Hterm.
    apply (admin_check_not_pending now gw oid db order Hfind).
    by apply terminal_not_pending.
  - intros oid db order Hfind Hterm.
    apply (bot_cancel_not_pending oid db order Hfind).
    by apply terminal_not_pending.
  - intros now update_type data db oid order Hpayload Hfind Hterm.
    apply (bot_webhook_not_pending now update_type data db oid order
             Hpayload Hfind).
    by apply terminal_not_pending.
  - apply webhook_paid_already_paid.
Qed.

Lemma terminal_orders_under_guarded_operations_witness :
  Main.cancel_payment "A1" Scenario.db_settled
    = (Scenario.db_settled, inr Main.Already_processed) /\
  Admin.manual_check_payment Scenario.t2 (Scenario.reports "paid") "A1"
                             Scenario.db_settled
    = (Scenario.db_settled, inr (Admin.Status_already "paid")) /\
  Bot.cancel_order "A1" Scenario.bot_settled
    = (Scenario.bot_settled, Bot.Already_processed) /\
  Bot.webhook Scenario.t2 (Update (Some "invoice_paid") (Some Scenario.update_paid))
              Scenario.bot_settled
    = (Scenario.bot_settled, Bot.Ok_200) /\
  Webhook._handle_invoice_paid Scenario.t2 (Some Scenario.update_paid)
                               Scenario.db_settled
    = (Scenario.db_settled, inr Webhook.Already_processed_200).
Proof.
  destruct terminal_orders_under_guarded_operations
    as (Hcancel & Hcheck & Hbotcancel & Hbot & Hhook).
  split; [|split; [|split; [|split]]].
  - apply (Hcancel "A1" Scenario.db_settled
             (Scenario.order_A1 "paid" (Some Scenario.t1)));
      [reflexivity | left; reflexivity].
  - apply (Hcheck Scenario.t2 (Scenario.reports "paid") "A1" Scenario.db_settled
             (Scenario.order_A1 "paid" (Some Scenario.t1)));
      [reflexivity | left; reflexivity].
  - apply (Hbotcancel "A1" Scenario.bot_settled
             (Scenario.bot_order_A1 "paid" (Some Scenario.t1)));
      [reflexivity | left; reflexivity].
  - apply (Hbot Scenario.t2 (Some "invoice_paid") Scenario.update_paid
             Scenario.bot_settled "A1"
             (Scenario.bot_order_A1 "paid" (Some Scenario.t1)));
      [reflexivity | reflexivity | left; reflexivity].
  - apply (Hhook Scenario.t2 Scenario.update_paid Scenario.db_settled 7
             (Scenario.order_A1 "paid" (Some Scenario.t1)));
      [reflexivity | discriminate | reflexivity | reflexivity].
Defined.

(** ** The three writes of the paid transition *)

Section Atomicity.

(** The paid event of the modular bot's webhook on an order that is not yet
    paid and has no ledger row: the status and the credit are committed
    before the ledger row is built. *)
Lemma webhook_paid_writes now data db inv order :
  now <> "" ->
  ev_invoice_id data = Some inv -> inv <> 0 ->
  Webhook.locate (ev_payload data) (Some inv) db = (db, inr (Some order)) ->
  Database.status order <> "paid" ->
  existsb (fun t => bool_decide (Database.tx_invoice_id t = inv))
          (Database.transactions db) = false ->
  Webhook._handle_invoice_paid now (Some data) db =
  match Webhook.float_amount (ev_amount data) (Database.amount_usd order) with
  | inl _ => (status_and_credit now order db, inr Webhook.Server_error_500)
  | inr amount =>
      (Database.set_transactions
         (fun rows => rows ++ [Database.mkTransaction inv
                                 (Database.order_id order) amount
                                 (default (Database.currency order)
                                          (ev_asset data))
                                 "" "paid"])
         (status_and_credit now order db),
       inr Webhook.Ok_200)
  end.
Proof.
  intros Hnow Hinv Hnz Hloc Hst Hnone.
  unfold Webhook._handle_invoice_paid, try_except.
  rewrite Hinv. unfold truthy_int.
  rewrite (bool_decide_eq_false_2 _ Hnz). cbn [negb].
  unfold bind at 1. rewrite Hloc.
  rewrite (bool_decide_eq_false_2 _ Hst).
  unfold bind. rewrite update_order_status_paid_eq by assumption.
  rewrite update_user_stats_eq, transaction_exists_eq.
  cbn [Database.transactions Database.set_users Database.set_orders
       default from_option id].
  rewrite Hnone. unfold lift.
  destruct (Webhook.float_amount _ _) as [e|amount]; reflexivity.
Qed.

(** The admin's forced check on a pending order that the provider reports
    paid and that has no ledger row: the status and the credit are committed,
    then building the ledger row raises, and the exception leaves the
    handler. *)
Lemma admin_check_paid_writes now gw oid db order inv :
  now <> "" ->
  find (Database.has_order_id oid) (Database.orders db) = Some order ->
  Database.status order = "pending" ->
  existsb (fun t => bool_decide (Database.tx_invoice_id t
                                 = Database.invoice_id order))
          (Database.transactions db) = false ->
  gw (Database.invoice_id order) = Ok_result inv ->
  inv_status inv = "paid" ->
  Admin.manual_check_payment now gw oid db =
  (status_and_credit now order db, inl (AttributeError "currency")).
Proof.
  intros Hnow Hfind Hst Hnone Hgw Hpaid.
  unfold Admin.manual_check_payment, bind at 1.
  rewrite get_order_eq, Hfind, Hst.
  rewrite bool_decide_eq_true_2 by reflexivity. cbn [negb].
  unfold bind at 1, lift. rewrite Hgw, cryptobot_check_payment_ok, Hpaid.
  cbn [CryptoBot.is_paid].
  rewrite bool_decide_eq_true_2 by reflexivity.
  unfold bind. rewrite update_order_status_paid_eq by assumption.
  rewrite update_user_stats_eq, transaction_exists_eq.
  cbn [Database.transactions Database.set_users Database.set_orders].
  rewrite Hnone. unfold status_and_credit.
  rewrite (find_has_order_id oid _ order Hfind). reflexivity.
Qed.

(** The single-file bot issues its writes on one connection and commits
    once: a check leaves the database as it was or with all three writes. *)
Lemma bot_check_payment_all_or_nothing now gw oid db :
  fst (Bot.check_payment now gw oid db) = db \/
  exists order row,
    fst (Bot.check_payment now gw oid db) =
    Bot.exec_insert_transaction row
      (Bot.exec_credit (Bot.user_id order) (Bot.amount_usd order)
         (Bot.exec_mark_paid now oid db)).
Proof.
  unfold Bot.check_payment.
  destruct (find _ _) as [order|]; [|by left].
  destruct (Bot.api_check_payment _) as [e|payment]; [by left|].
  destruct (Bot.p_is_paid payment); [|by left].
  destruct (Bot.p_amount payment) as [amount|]; [|by left].
  destruct (Bot.p_asset payment) as [a|]; [|by left].
  right. eexists _, _. reflexivity.
Qed.

(** Each store method is atomic by itself: its connection commits what its
    body did, or, when the body raises, nothing. *)
Lemma get_connection_all_or_nothing {A}
    (body : Database.Store -> exn + (Database.Store * A)) db :
  (exists conn a, body db = inr (conn, a) /\
                  Database.get_connection body db = (conn, inr a)) \/
  (exists e, body db = inl e /\ Database.get_connection body db = (db, inl e)).
Proof.
  unfold Database.get_connection.
  destruct (body db) as [e|[conn a]]; [right|left]; eauto.
Qed.

End Atomicity.

(** C4, as stated, fails: a paid update for the pending order A1 whose amount
    is not a number makes the insert of the ledger row fail after the status
    write and the credit were committed. The receiver answers 500 and the
    store is left with the order paid and its owner credited, but without a
    Transaction. *)
Lemma C4_failed_insert_leaves_order_paid :
  Webhook._handle_invoice_paid Scenario.t1 (Some Scenario.update_bad_amount)
                               Scenario.db_pending =
  (Database.mkStore
     {[ 42 := Database.mkUser (Some "ann") (Some "Ann") None (Some "ru") 999 1 ]}
     [Scenario.order_A1 "paid" (Some Scenario.t1)]
     [],
   inr Webhook.Server_error_500).
Proof. vm_compute. reflexivity. Qed.

(** C4 (amended). In the modular bot the three writes of the pending-to-paid
    transition are three transactions, not one: each store method opens its
    own connection, which commits when the method returns (and rolls back
    only that method's own statements when it raises). For the paid event of
    the webhook on an order not yet paid and without a ledger row: when
    building the ledger row raises (the update's amount is not a number) the
    status write and the owner's credit stay committed, no Transaction is
    written and the answer is 500; otherwise all three writes are applied
    and the answer is 200. *)
Theorem C4_writes_commit_one_by_one :
  (forall now data db inv order,
     now <> "" ->
     ev_invoice_id data = Some inv -> inv <> 0 ->
     Webhook.locate (ev_payload data) (Some inv) db = (db, inr (Some order)) ->
     Database.status order <> "paid" ->
     existsb (fun t => bool_decide (Database.tx_invoice_id t = inv))
             (Database.transactions db) = false ->
     match ev_amount data with
     | Some Malformed =>
         Webhook._handle_invoice_paid now (Some data) db =
         (status_and_credit now order db, inr Webhook.Server_error_500)
     | Some (Numeric amount) =>
         Webhook._handle_invoice_paid now (Some data) db =
         (Database.set_transactions
            (fun rows => rows ++ [Database.mkTransaction inv
                                    (Database.order_id order) amount
                                    (default (Database.currency order)
                                             (ev_asset data))
                                    "" "paid"])
            (status_and_credit now order db),
          inr Webhook.Ok_200)
     | None =>
         Webhook._handle_invoice_paid now (Some data) db =
         (Database.set_transactions
            (fun rows => rows ++ [Database.mkTransaction inv
                                    (Database.order_id order)
                                    (Database.amount_usd order)
                                    (default (Database.currency order)
                                             (ev_asset data))
                                    "" "paid"])
            (status_and_credit now order db),
          inr Webhook.Ok_200)
     end) /\
  (forall (A : Type) (body : Database.Store -> exn + (Database.Store * A)) db,
     (exists conn a, body db = inr (conn, a) /\
                     Database.get_connection body db = (conn, inr a)) \/
     (exists e, body db = inl e /\
                Database.get_connection body db = (db, inl e))).
Proof.
  split.
  - intros now data db inv order Hnow Hinv Hnz Hloc Hst Hnone.
    rewrite (webhook_paid_writes now data db inv order) by assumption.
    destruct (ev_amount data) as [[amount|]|]; reflexivity.
  - intros A body db. apply get_connection_all_or_nothing.
Qed.

(** The amended claim at work: the well-formed paid update for the pending
    order A1 applies all three writes. *)
Lemma C4_writes_commit_one_by_one_witness :
  Webhook._handle_invoice_paid Scenario.t1 (Some Scenario.update_paid)
                               Scenario.db_pending =
  (Scenario.db_settled, inr Webhook.Ok_200).
Proof.
  exact (proj1 C4_writes_commit_one_by_one Scenario.t1 Scenario.update_paid
           Scenario.db_pending 7 (Scenario.order_A1 "pending" None)
           ltac:(discriminate) eq_refl ltac:(discriminate) eq_refl
           ltac:(cbn; discriminate) eq_refl).
Defined.

(** ** More on the gateway clients *)

Section GatewayClientMore.

Lemma cryptobot_paid_only_ok inv_id r p :
  CryptoBot.check_payment inv_id r = inr p ->
  CryptoBot.is_paid p = true ->
  exists inv, r = Ok_result inv /\ inv_status inv = "paid".
Proof.
  destruct r as [inv|message|text|d].
  - rewrite cryptobot_check_payment_ok. intros [= <-]. cbn [CryptoBot.is_paid].
    intros Hp. exists inv. split; [reflexivity|].
    by apply bool_decide_eq_true_1 in Hp.
  - unfold CryptoBot.check_payment, CryptoBot.get_invoice,
      CryptoBot._make_request.
    destruct (str_contains _ _); [|discriminate].
    intros [= <-]. discriminate.
  - unfold CryptoBot.check_payment, CryptoBot.get_invoice,
      CryptoBot._make_request.
    destruct (str_contains _ _); [|discriminate].
    intros [= <-]. discriminate.
  - discriminate.
Qed.

Lemma cryptobot_sync_paid_only_ok inv_id r :
  CryptoBot.is_paid (CryptoBot.check_payment_sync inv_id r) = true ->
  exists data, r = Sync_ok data /\ js_status data = "paid".
Proof.
  destruct r as [data| |text]; try discriminate.
  cbn [CryptoBot.check_payment_sync CryptoBot.is_paid].
  rewrite status_map_is_paid. intros Hp. exists data. split; [reflexivity|].
  by apply bool_decide_eq_true_1 in Hp.
Qed.

Lemma bot_status_map_paid st :
  dict_get Bot.status_map st "unknown" = "paid" -> st = "paid".
Proof.
  unfold Bot.status_map, dict_get.
  destruct (bool_decide ("active" = st)); [discriminate|].
  destruct (decide ("paid" = st)) as [Heq|Hne]; [by intros _|].
  rewrite (bool_decide_eq_false_2 _ Hne).
  destruct (bool_decide ("expired" = st)); discriminate.
Qed.

Lemma bot_paid_only_ok r p :
  Bot.api_check_payment r = inr p ->
  Bot.p_is_paid p = true ->
  exists inv, r = Ok_result inv /\ inv_status inv = "paid".
Proof.
  destruct r as [inv|message|text|d]; try discriminate.
  - intros [= <-]. cbn [Bot.p_is_paid]. intros Hp.
    apply bool_decide_eq_true_1 in Hp. exists inv. split; [reflexivity|].
    by apply bot_status_map_paid.
  - intros [= <-]. discriminate.
Qed.

End GatewayClientMore.




(** No client ever flags a check as paid on an error: the paid flag is set
    only when the provider's answer is ok and its invoice has the status
    "paid". This holds for the asynchronous and the synchronous check of
    [cryptobot.py] and for the client inside [bot.py]. *)
Theorem paid_flag_only_on_paid_invoice :
  (forall inv_id r p,
     CryptoBot.check_payment inv_id r = inr p ->
     CryptoBot.is_paid p = true ->
     exists inv, r = Ok_result inv /\ inv_status inv = "paid") /\
  (forall inv_id r,
     CryptoBot.is_paid (CryptoBot.check_payment_sync inv_id r) = true ->
     exists data, r = Sync_ok data /\ js_status data = "paid") /\
  (forall r p,
     Bot.api_check_payment r = inr p ->
     Bot.p_is_paid p = true ->
     exists inv, r = Ok_result inv /\ inv_status inv = "paid").
Proof.
  split; [exact cryptobot_paid_only_ok|].
  split; [exact cryptobot_sync_paid_only_ok|exact bot_paid_only_ok].
Qed.

Lemma paid_flag_only_on_paid_invoice_witness :
  (exists inv,
     Scenario.reports "paid" 7 = Ok_result inv /\ inv_status inv = "paid") /\
  (exists data,
     Sync_ok (mkInvoiceJson "paid" (Numeric 999) (Text "USDT")) = Sync_ok data
     /\ js_status data = "paid") /\
  (exists inv,
     Scenario.reports "paid" 9 = Ok_result inv /\ inv_status inv = "paid").
Proof.
  destruct paid_flag_only_on_paid_invoice as (Hasync & Hsync & Hbot).
  split; [|split].
  - apply (Hasync 7 (Scenario.reports "paid" 7)
             (CryptoBot.mkPaymentCheck 7 CryptoBot.PAID 999 "USDT" true
                (CryptoBot.Raw_invoice
                   (mkInvoice "paid" (Numeric 999) (Some "USDT"))))
             eq_refl eq_refl).
  - apply (Hsync 8 (Sync_ok (mkInvoiceJson "paid" (Numeric 999) (Text "USDT")))
             eq_refl).
  - apply (Hbot (Scenario.reports "paid" 9)
             (Bot.mkPayment "paid" true (Some (Numeric 999)) (Some "USDT"))
             eq_refl eq_refl).
Defined.

(** ** What a call can do to the store of the modular bot *)

Section Effects.
Import Database.

Lemma find_elem_of {A} (p : A -> bool) (rows : list A) (x : A) :
  find p rows = Some x -> x ∈ rows.
Proof. intros H. apply find_some in H as [H _]. by apply list_elem_of_In. Qed.

Lemma locate_elem_of oid inv db order :
  Webhook.locate oid inv db = (db, inr (Some order)) -> order ∈ orders db.
Proof.
  unfold Webhook.locate, bind, ret.
  destruct (truthy_str oid); cbn.
  - destruct (find (has_order_id _) _) as [o|] eqn:Hfind.
    + intros ?; simplify_eq. by eapply find_elem_of.
    + destruct inv as [i|]; [|intros ?; simplify_eq].
      rewrite get_order_by_invoice_eq.
      destruct (find _ _) as [o|] eqn:Hinv; intros ?; simplify_eq.
      by eapply find_elem_of.
  - destruct inv as [i|]; [|intros ?; simplify_eq].
    rewrite get_order_by_invoice_eq.
    destruct (find _ _) as [o|] eqn:Hinv; intros ?; simplify_eq.
    by eapply find_elem_of.
Qed.

Lemma ledger_step_refl rows : ledger_step rows rows.
Proof. by left. Qed.

Lemma main_check_payment_settlement now gw oid db :
  settlement (Some now) db (fst (Main.check_payment now gw oid db)).
Proof.
  unfold Main.check_payment, bind at 1. rewrite get_order_eq.
  destruct (find _ _) as [order|] eqn:Hfind; [|apply settlement_none].
  apply find_elem_of in Hfind.
  unfold try_except, bind at 1, lift.
  destruct (CryptoBot.check_payment _ _) as [e|payment]; [apply settlement_none|].
  destruct (CryptoBot.is_paid payment); [|apply settlement_none].
  unfold bind, update_order_status, update_user_stats, transaction_exists,
    create_transaction, get_connection.
  destruct (truthy_str (Some now)) eqn:Ht;
    cbn [transactions users orders set_users set_orders set_transactions fst];
    destruct (existsb _ (transactions db)) eqn:Hex;
    cbn [transactions users orders set_users set_orders set_transactions fst
         ret];
    (apply (settlement_paid (Some now) db order oid);
     [exact Hfind | reflexivity | reflexivity | by intros ?; rewrite Ht |]);
    first [ apply ledger_step_refl
          | right; eexists; split; [reflexivity | exact Hex] ].
Qed.

Lemma main_cancel_payment_effect oid db :
  effect db (fst (Main.cancel_payment oid db)).
Proof.
  unfold Main.cancel_payment, bind at 1. rewrite get_order_eq.
  destruct (find _ _) as [order|]; [|apply (effect_settlement db None), settlement_none].
  destruct (negb _); [apply (effect_settlement db None), settlement_none|].
  apply effect_restatus.
Qed.

Lemma admin_check_settlement now gw oid db :
  settlement (Some now) db (fst (Admin.manual_check_payment now gw oid db)).
Proof.
  unfold Admin.manual_check_payment, bind at 1. rewrite get_order_eq.
  destruct (find _ _) as [order|] eqn:Hfind; [|apply settlement_none].
  apply find_elem_of in Hfind.
  destruct (negb _); [apply settlement_none|].
  unfold bind at 1, lift.
  destruct (CryptoBot.check_payment _ _) as [e|payment]; [apply settlement_none|].
  destruct (CryptoBot.is_paid payment); [|apply settlement_none].
  unfold bind, update_order_status, update_user_stats, transaction_exists,
    get_connection, raise.
  destruct (truthy_str (Some now)) eqn:Ht;
    cbn [transactions users orders set_users set_orders set_transactions fst];
    destruct (existsb _ (transactions db));
    cbn [transactions users orders set_users set_orders set_transactions fst
         ret];
    (apply (settlement_paid (Some now) db order oid);
     [exact Hfind | reflexivity | reflexivity | by intros ?; rewrite Ht | apply ledger_step_refl]).
Qed.

Lemma admin_confirm_settlement now oid db :
  settlement (Some now) db (fst (Admin.manual_confirm_order now oid db)).
Proof.
  unfold Admin.manual_confirm_order, bind at 1. rewrite get_order_eq.
  destruct (find _ _) as [order|] eqn:Hfind; [|apply settlement_none].
  apply find_elem_of in Hfind.
  unfold bind, update_order_status, update_user_stats, get_connection.
  destruct (truthy_str (Some now)) eqn:Ht;
    cbn [transactions users orders set_users set_orders set_transactions fst
         ret];
    (apply (settlement_paid (Some now) db order oid);
     [exact Hfind | reflexivity | reflexivity | by intros ?; rewrite Ht | apply ledger_step_refl]).
Qed.

Lemma admin_cancel_effect oid db :
  effect db (fst (Admin.manual_cancel_order oid db)).
Proof.
  unfold Admin.manual_cancel_order, bind at 1. rewrite get_order_eq.
  destruct (find _ _) as [order|]; [|apply (effect_settlement db None), settlement_none].
  apply effect_restatus.
Qed.

Lemma webhook_paid_settlement now payload db :
  settlement (Some now) db (fst (Webhook._handle_invoice_paid now payload db)).
Proof.
  unfold Webhook._handle_invoice_paid, try_except.
  destruct payload as [data|]; [|apply settlement_none].
  destruct (negb (truthy_int (ev_invoice_id data))); [apply settlement_none|].
  unfold bind at 1.
  destruct (locate_ok (ev_payload data) (ev_invoice_id data) db) as [o Hloc].
  rewrite Hloc.
  destruct o as [order|]; [|apply settlement_none].
  apply locate_elem_of in Hloc.
  destruct (bool_decide (status order = "paid")); [apply settlement_none|].
  unfold bind, update_order_status, update_user_stats, transaction_exists,
    create_transaction, get_connection, lift, Webhook.float_amount.
  destruct (truthy_str (Some now)) eqn:Ht;
    cbn [transactions users orders set_users set_orders set_transactions fst];
    destruct (existsb _ (transactions db)) eqn:Hex;
    cbn [transactions users orders set_users set_orders set_transactions fst
         ret];
    try (apply (settlement_paid (Some now) db order (order_id order));
     [exact Hloc | reflexivity | reflexivity | by intros ?; rewrite Ht | apply ledger_step_refl]);
    destruct (ev_amount data) as [[a|]|];
    cbn [transactions users orders set_users set_orders set_transactions fst
         ret];
    (apply (settlement_paid (Some now) db order (order_id order));
     [exact Hloc | reflexivity | reflexivity | by intros ?; rewrite Ht |]);
    first [ apply ledger_step_refl
          | right; eexists; split; [reflexivity | exact Hex] ].
Qed.

Lemma webhook_settlement now b db :
  settlement (Some now) db (fst (Webhook._handle_webhook now b db)).
Proof.
  unfold Webhook._handle_webhook. destruct b as [|update_type payload];
    [apply settlement_none|].
  destruct (bool_decide _); [apply webhook_paid_settlement|apply settlement_none].
Qed.

(** Consequences of an effect. *)

Lemma update_where_frozen oid f rows :
  (forall o, frozen (f o) = frozen o) ->
  map frozen (update_where oid f rows) = map frozen rows.
Proof.
  intros Hf. unfold update_where. rewrite map_map. apply map_ext.
  intros o. destruct (has_order_id oid o); [apply Hf|reflexivity].
Qed.

Lemma effect_frozen db db' :
  effect db db' -> map frozen (orders db') = map frozen (orders db).
Proof.
  intros [? ? [|order oid f ledger _ Hf _ _ _]|oid st]; [reflexivity| |].
  - cbn [orders]. by apply update_where_frozen.
  - cbn [orders set_orders]. by apply update_where_frozen.
Qed.

(** After a settlement every row is a row of before or a paid copy of one. *)
Lemma settlement_rows t db db' o' :
  settlement t db db' -> o' ∈ orders db' ->
  o' ∈ orders db \/
  (status o' = "paid" /\ exists o, o ∈ orders db /\ frozen o' = frozen o).
Proof.
  intros [|order oid f ledger _ Hf Hpaid _ _] Hin; [by left|].
  cbn [orders] in Hin. unfold update_where in Hin.
  apply list_elem_of_fmap in Hin as (o & -> & Hin).
  destruct (has_order_id oid o); [right|by left].
  split; [apply Hpaid|]. exists o. split; [exact Hin|apply Hf].
Qed.

Lemma alter_credit_grows amount uid (m : gmap Z User) :
  0 <= amount -> users_grow m (alter (credit amount) uid m).
Proof.
  intros Hpos k. rewrite lookup_alter.
  destruct (decide (uid = k)) as [->|Hne].
  - destruct (m !! k) as [u|]; cbn; [|done].
    repeat split; try reflexivity; lia.
  - destruct (m !! k) as [u|]; [|done].
    repeat split; try reflexivity; lia.
Qed.

Lemma users_grow_refl (m : gmap Z User) : users_grow m m.
Proof.
  intros k. destruct (m !! k) as [u|]; [|done].
  repeat split; try reflexivity; lia.
Qed.

Lemma effect_users_grow db db' :
  effect db db' ->
  (forall o, o ∈ orders db -> 0 <= amount_usd o) ->
  users_grow (users db) (users db').
Proof.
  intros [? ? [|order oid f ledger Hin _ _ _ _]|oid st] Hpos.
  - apply users_grow_refl.
  - cbn [users]. apply alter_credit_grows. by apply Hpos.
  - apply users_grow_refl.
Qed.

End Effects.

(** Through every reconciliation path of the modular bot (the user's check
    and cancel, the admin's forced check, manual confirm and manual cancel,
    and any webhook delivery) the orders table keeps its rows, in order, and
    each row keeps its order id, owner, product, amounts, currency, network
    and invoice id: only status and paid time can change. *)
Theorem reconciliation_keeps_order_data db :
  (forall now gw oid,
     map frozen (Database.orders (fst (Main.check_payment now gw oid db)))
     = map frozen (Database.orders db)) /\
  (forall oid,
     map frozen (Database.orders (fst (Main.cancel_payment oid db)))
     = map frozen (Database.orders db)) /\
  (forall now gw oid,
     map frozen (Database.orders (fst (Admin.manual_check_payment now gw oid db)))
     = map frozen (Database.orders db)) /\
  (forall now oid,
     map frozen (Database.orders (fst (Admin.manual_confirm_order now oid db)))
     = map frozen (Database.orders db)) /\
  (forall oid,
     map frozen (Database.orders (fst (Admin.manual_cancel_order oid db)))
     = map frozen (Database.orders db)) /\
  (forall now b,
     map frozen (Database.orders (fst (Webhook._handle_webhook now b db)))
     = map frozen (Database.orders db)).
Proof.
  repeat split; intros; apply effect_frozen;
    first [ eapply effect_settlement;
            first [ apply main_check_payment_settlement
                  | apply admin_check_settlement
                  | apply admin_confirm_settlement
                  | apply webhook_settlement ]
          | apply main_cancel_payment_effect
          | apply admin_cancel_effect ].
Qed.

(** When no stored order has a negative amount, no reconciliation path of the
    modular bot lowers a user's [total_spent] or [orders_count], renames a
    user, or adds or removes a user. *)
Theorem reconciliation_never_lowers_aggregates db :
  (forall o, o ∈ Database.orders db -> 0 <= Database.amount_usd o) ->
  (forall now gw oid,
     users_grow (Database.users db)
                (Database.users (fst (Main.check_payment now gw oid db)))) /\
  (forall oid,
     users_grow (Database.users db)
                (Database.users (fst (Main.cancel_payment oid db)))) /\
  (forall now gw oid,
     users_grow (Database.users db)
                (Database.users (fst (Admin.manual_check_payment now gw oid db)))) /\
  (forall now oid,
     users_grow (Database.users db)
                (Database.users (fst (Admin.manual_confirm_order now oid db)))) /\
  (forall oid,
     users_grow (Database.users db)
                (Database.users (fst (Admin.manual_cancel_order oid db)))) /\
  (forall now b,
     users_grow (Database.users db)
                (Database.users (fst (Webhook._handle_webhook now b db)))).
Proof.
  intros Hpos.
  repeat split; intros; (apply effect_users_grow; [|exact Hpos]);
    first [ eapply effect_settlement;
            first [ apply main_check_payment_settlement
                  | apply admin_check_settlement
                  | apply admin_confirm_settlement
                  | apply webhook_settlement ]
          | apply main_cancel_payment_effect
          | apply admin_cancel_effect ].
Qed.

Lemma reconciliation_never_lowers_aggregates_witness :
  users_grow (Database.users Scenario.db_pending)
             (Database.users
                (fst (Main.check_payment Scenario.t1 (Scenario.reports "paid")
                                         "A1" Scenario.db_pending))).
Proof.
  apply (reconciliation_never_lowers_aggregates Scenario.db_pending).
  intros o Ho. apply list_elem_of_singleton in Ho as ->. cbn. lia.
Defined.

(** The user's check, the admin's forced check and manual confirm, and any
    webhook delivery never cancel or expire an order: every row they leave
    is a row of before, or a copy of one, with the same order data, whose
    status is "paid". *)
Theorem checks_and_webhook_only_mark_paid db o' :
  (forall now gw oid,
     o' ∈ Database.orders (fst (Main.check_payment now gw oid db)) ->
     o' ∈ Database.orders db \/
     (Database.status o' = "paid" /\
      exists o, o ∈ Database.orders db /\ frozen o' = frozen o)) /\
  (forall now gw oid,
     o' ∈ Database.orders (fst (Admin.manual_check_payment now gw oid db)) ->
     o' ∈ Database.orders db \/
     (Database.status o' = "paid" /\
      exists o, o ∈ Database.orders db /\ frozen o' = frozen o)) /\
  (forall now oid,
     o' ∈ Database.orders (fst (Admin.manual_confirm_order now oid db)) ->
     o' ∈ Database.orders db \/
     (Database.status o' = "paid" /\
      exists o, o ∈ Database.orders db /\ frozen o' = frozen o)) /\
  (forall now b,
     o' ∈ Database.orders (fst (Webhook._handle_webhook now b db)) ->
     o' ∈ Database.orders db \/
     (Database.status o' = "paid" /\
      exists o, o ∈ Database.orders db /\ frozen o' = frozen o)).
Proof.
  repeat split; intros;
    (eapply settlement_rows; [|eassumption]);
    first [ apply main_check_payment_settlement
          | apply admin_check_settlement
          | apply admin_confirm_settlement
          | apply webhook_settlement ].
Qed.

Lemma checks_and_webhook_only_mark_paid_witness :
  let o' := Scenario.order_A1 "paid" (Some Scenario.t1) in
  o' ∈ Database.orders Scenario.db_pending \/
  (Database.status o' = "paid" /\
   exists o, o ∈ Database.orders Scenario.db_pending /\ frozen o' = frozen o).
Proof.
  intros o'.
  apply (proj2 (proj2 (proj2
           (checks_and_webhook_only_mark_paid Scenario.db_pending o')))
           Scenario.t1
           (Update (Some "invoice_paid") (Some Scenario.update_paid))).
  vm_compute. apply list_elem_of_here.
Defined.

(** The user's check changes the store only when the provider's answer is ok
    and its invoice has the status "paid": in every other case (unknown
    order, any error, any other status) the store is left exactly as it
    was, in both bots. *)
Theorem check_changes_store_only_when_paid :
  (forall now gw oid db,
     fst (Main.check_payment now gw oid db) = db \/
     exists order inv,
       find (Database.has_order_id oid) (Database.orders db) = Some order /\
       gw (Database.invoice_id order) = Ok_result inv /\
       inv_status inv = "paid") /\
  (forall now gw oid db,
     fst (Bot.check_payment now gw oid db) = db \/
     exists order inv,
       find (Bot.has_order_id oid) (Bot.orders db) = Some order /\
       gw (Bot.invoice_id order) = Ok_result inv /\
       inv_status inv = "paid").
Proof.
  split; intros now gw oid db.
  - unfold Main.check_payment, bind at 1. rewrite get_order_eq.
    destruct (find _ _) as [order|] eqn:Hfind; [|by left].
    unfold try_except, bind at 1, lift.
    destruct (CryptoBot.check_payment _ _) as [e|payment] eqn:Hp; [by left|].
    destruct (CryptoBot.is_paid payment) eqn:Hpaid; [|by left].
    right. destruct (cryptobot_paid_only_ok _ _ _ Hp Hpaid) as (inv & Hgw & Hst).
    by exists order, inv.
  - unfold Bot.check_payment.
    destruct (find _ _) as [order|] eqn:Hfind; [|by left].
    destruct (Bot.api_check_payment _) as [e|payment] eqn:Hp; [by left|].
    destruct (Bot.p_is_paid payment) eqn:Hpaid; [|by left].
    right. destruct (bot_paid_only_ok _ _ Hp Hpaid) as (inv & Hgw & Hst).
    by exists order, inv.
Qed.

(** ** The paid time *)

Section PaidTime.
Import Database.

Lemma settlement_paid_at now db db' :
  settlement (Some now) db db' -> now <> "" ->
  paid_at_iff_paid (orders db) -> paid_at_iff_paid (orders db').
Proof.
  intros [|order oid f ledger _ _ Hst Hat _] Hnow Hinv; [exact Hinv|].
  intros o' Hin. cbn [orders] in Hin. unfold update_where in Hin.
  apply list_elem_of_fmap in Hin as (o & -> & Hin).
  destruct (has_order_id oid o); [|by apply Hinv].
  rewrite Hst, Hat. unfold truthy_str.
  rewrite (bool_decide_eq_false_2 _ Hnow). cbn. split; eauto.
Qed.

(** With unique order ids, the row found for an id is the only row with that
    id. *)
Lemma unique_order_id oid rows order o :
  NoDup (map order_id rows) ->
  find (has_order_id oid) rows = Some order ->
  o ∈ rows -> has_order_id oid o = true -> o = order.
Proof.
  intros Hnd Hfind Hin Ho.
  apply bool_decide_eq_true_1 in Ho.
  pose proof (find_has_order_id _ _ _ Hfind) as Horder.
  apply find_elem_of in Hfind.
  induction rows as [|r rows IH]; [by apply elem_of_nil in Hin|].
  cbn [map] in Hnd. apply NoDup_cons in Hnd as [Hnotin Hnd].
  apply elem_of_cons in Hin as [->|Hin];
    apply elem_of_cons in Hfind as [->|Hfind]; try reflexivity.
  - exfalso. apply Hnotin. rewrite Ho, <- Horder.
    by apply list_elem_of_fmap_2.
  - exfalso. apply Hnotin. rewrite Horder, <- Ho.
    by apply list_elem_of_fmap_2.
  - by apply IH.
Qed.

Lemma main_cancel_paid_at oid db :
  NoDup (map order_id (orders db)) ->
  paid_at_iff_paid (orders db) ->
  paid_at_iff_paid (orders (fst (Main.cancel_payment oid db))).
Proof.
  intros Hnd Hinv.
  destruct (find (has_order_id oid) (orders db)) as [order|] eqn:Hfind.
  - destruct (decide (status order = "pending")) as [Hst|Hst].
    + rewrite (main_cancel_pending oid db order Hfind Hst).
      intros o' Hin. cbn [fst orders set_orders] in Hin.
      unfold update_where in Hin.
      apply list_elem_of_fmap in Hin as (o & -> & Hin).
      destruct (has_order_id oid o) eqn:Ho; [|by apply Hinv].
      rewrite (unique_order_id oid _ order o Hnd Hfind Hin Ho).
      cbn [status paid_at with_status]. split; [discriminate|].
      intros Hsome. apply (Hinv order) in Hsome; [|by eapply find_elem_of].
      congruence.
    + by rewrite (main_cancel_not_pending oid db order Hfind Hst).
  - unfold Main.cancel_payment, bind at 1. rewrite get_order_eq, Hfind.
    exact Hinv.
Qed.

End PaidTime.

(** "An order has a paid time exactly when its status is paid" is kept by the
    user's check, the admin's forced check and manual confirm and every
    webhook delivery (the clock's text being non-empty), and, when order ids
    are unique as the schema declares, by the user's cancel. *)
Theorem paid_time_follows_status db now :
  now <> "" ->
  paid_at_iff_paid (Database.orders db) ->
  (forall gw oid,
     paid_at_iff_paid
       (Database.orders (fst (Main.check_payment now gw oid db)))) /\
  (forall gw oid,
     paid_at_iff_paid
       (Database.orders (fst (Admin.manual_check_payment now gw oid db)))) /\
  (forall oid,
     paid_at_iff_paid
       (Database.orders (fst (Admin.manual_confirm_order now oid db)))) /\
  (forall b,
     paid_at_iff_paid
       (Database.orders (fst (Webhook._handle_webhook now b db)))) /\
  (NoDup (map Database.order_id (Database.orders db)) ->
   forall oid,
     paid_at_iff_paid (Database.orders (fst (Main.cancel_payment oid db)))).
Proof.
  intros Hnow Hinv.
  split; [|split; [|split; [|split]]].
  - intros gw oid. eapply settlement_paid_at;
      [apply main_check_payment_settlement|exact Hnow|exact Hinv].
  - intros gw oid. eapply settlement_paid_at;
      [apply admin_check_settlement|exact Hnow|exact Hinv].
  - intros oid. eapply settlement_paid_at;
      [apply admin_confirm_settlement|exact Hnow|exact Hinv].
  - intros b. eapply settlement_paid_at;
      [apply webhook_settlement|exact Hnow|exact Hinv].
  - intros Hnd oid. by apply main_cancel_paid_at.
Qed.

Lemma paid_time_follows_status_witness :
  paid_at_iff_paid
    (Database.orders
       (fst (Main.check_payment Scenario.t1 (Scenario.reports "paid") "A1"
                                Scenario.db_pending))) /\
  paid_at_iff_paid
    (Database.orders (fst (Main.cancel_payment "A1" Scenario.db_pending))).
Proof.
  assert (Hinv : paid_at_iff_paid (Database.orders Scenario.db_pending)).
  { intros o Ho. apply list_elem_of_singleton in Ho as ->. cbn.
    split; [discriminate|]. intros [x Hx]. discriminate. }
  destruct (paid_time_follows_status Scenario.db_pending Scenario.t1
              ltac:(discriminate) Hinv) as (Hcheck & _ & _ & _ & Hcancel).
  split; [apply Hcheck|].
  apply Hcancel. cbn. apply NoDup_singleton.
Defined.

(** ** Deliveries that come again *)

Section Redelivery.
Import Database.

Lemma frozen_order_id f o :
  frozen (f o) = frozen o -> order_id (f o) = order_id o.
Proof. unfold frozen. intros H. by simplify_eq. Qed.

Lemma frozen_invoice_id f o :
  frozen (f o) = frozen o -> invoice_id (f o) = invoice_id o.
Proof. unfold frozen. intros H. by simplify_eq. Qed.

(** A lookup by a column that the update leaves alone finds the updated
    row. *)
Lemma find_update_where_by (p : Order -> bool) oid f rows :
  (forall o, p (f o) = p o) ->
  find p (update_where oid f rows) =
  (fun o => if has_order_id oid o then f o else o) <$> find p rows.
Proof.
  intros Hp. unfold update_where.
  induction rows as [|o rows IH]; [reflexivity|].
  cbn [map find].
  assert (Hsame : p (if has_order_id oid o then f o else o) = p o).
  { destruct (has_order_id oid o); [apply Hp|reflexivity]. }
  rewrite Hsame. destruct (p o); [reflexivity|exact IH].
Qed.

Lemma locate_update oid inv db db1 k f order :
  (forall o, frozen (f o) = frozen o) ->
  orders db1 = update_where k f (orders db) ->
  Webhook.locate oid inv db = (db, inr (Some order)) ->
  Webhook.locate oid inv db1 =
  (db1, inr (Some (if has_order_id k order then f order else order))).
Proof.
  intros Hf Horders.
  assert (Hid : forall i o, has_order_id i (f o) = has_order_id i o).
  { intros i o. unfold has_order_id. by rewrite frozen_order_id. }
  assert (Hinv : forall i o, bool_decide (invoice_id (f o) = i)
                             = bool_decide (invoice_id o = i)).
  { intros i o. by rewrite frozen_invoice_id. }
  unfold Webhook.locate, bind, ret.
  destruct (truthy_str oid); cbn.
  - rewrite Horders, (find_update_where_by _ k f _ (Hid _)).
    destruct (find (has_order_id _) (orders db)) as [o|]; cbn.
    + intros ?; by simplify_eq.
    + destruct inv as [i|]; [|intros ?; simplify_eq].
      rewrite !get_order_by_invoice_eq, Horders,
        (find_update_where_by _ k f _ (Hinv i)).
      destruct (find _ (orders db)) as [o|]; cbn; intros ?; by simplify_eq.
  - destruct inv as [i|]; [|intros ?; simplify_eq].
    rewrite !get_order_by_invoice_eq, Horders,
      (find_update_where_by _ k f _ (Hinv i)).
    destruct (find _ (orders db)) as [o|]; cbn; intros ?; by simplify_eq.
Qed.

(** The orders after a paid event that settles: the rows of the located
    order's id, rewritten as paid. *)
Lemma webhook_paid_orders now data db inv order :
  ev_invoice_id data = Some inv -> inv <> 0 ->
  Webhook.locate (ev_payload data) (Some inv) db = (db, inr (Some order)) ->
  status order <> "paid" ->
  exists f,
    (forall o, frozen (f o) = frozen o) /\
    (forall o, status (f o) = "paid") /\
    orders (fst (Webhook._handle_invoice_paid now (Some data) db)) =
    update_where (order_id order) f (orders db).
Proof.
  intros Hinv Hnz Hloc Hst.
  unfold Webhook._handle_invoice_paid, try_except.
  rewrite Hinv. unfold truthy_int.
  rewrite (bool_decide_eq_false_2 _ Hnz). cbn [negb].
  unfold bind at 1. rewrite Hloc.
  rewrite (bool_decide_eq_false_2 _ Hst).
  unfold bind, update_order_status, update_user_stats, transaction_exists,
    create_transaction, get_connection, lift, Webhook.float_amount.
  destruct (truthy_str (Some now));
    cbn [transactions users orders set_users set_orders set_transactions fst];
    destruct (existsb _ (transactions db));
    cbn [transactions users orders set_users set_orders set_transactions fst
         ret];
    try (eexists; split; [|split; [|reflexivity]]; reflexivity);
    destruct (ev_amount data) as [[a|]|];
    cbn [transactions users orders set_users set_orders set_transactions fst
         ret];
    (eexists; split; [|split; [|reflexivity]]; reflexivity).
Qed.

Lemma webhook_paid_again now1 now2 payload db :
  fst (Webhook._handle_invoice_paid now2 payload
         (fst (Webhook._handle_invoice_paid now1 payload db))) =
  fst (Webhook._handle_invoice_paid now1 payload db).
Proof.
  destruct payload as [data|]; [|reflexivity].
  destruct (ev_invoice_id data) as [inv|] eqn:Hinv.
  2: { unfold Webhook._handle_invoice_paid, try_except. rewrite Hinv.
       reflexivity. }
  destruct (decide (inv = 0)) as [->|Hnz].
  { unfold Webhook._handle_invoice_paid, try_except. rewrite Hinv.
    reflexivity. }
  destruct (locate_ok (ev_payload data) (Some inv) db) as [o Hloc].
  destruct o as [order|].
  2: { assert (Hsame : forall now,
                 fst (Webhook._handle_invoice_paid now (Some data) db) = db).
       { intros now. unfold Webhook._handle_invoice_paid, try_except.
         rewrite Hinv. unfold truthy_int.
         rewrite (bool_decide_eq_false_2 _ Hnz). cbn [negb].
         unfold bind at 1. rewrite Hloc. reflexivity. }
       by rewrite (Hsame now1), (Hsame now2). }
  destruct (decide (status order = "paid")) as [Hst|Hst].
  { rewrite (webhook_paid_already_paid now1 data db inv order) by assumption.
    cbn [fst].
    by rewrite (webhook_paid_already_paid now2 data db inv order). }
  destruct (webhook_paid_orders now1 data db inv order Hinv Hnz Hloc Hst)
    as (f & Hf & Hpaid & Horders).
  set (db1 := fst (Webhook._handle_invoice_paid now1 (Some data) db)) in *.
  pose proof (locate_update _ _ db db1 _ f order Hf Horders Hloc) as Hloc1.
  rewrite (webhook_paid_already_paid now2 data db1 inv _ Hinv Hnz Hloc1);
    [reflexivity|].
  assert (Hhas : has_order_id (order_id order) order = true)
    by (by apply bool_decide_eq_true_2).
  rewrite Hhas. apply Hpaid.
Qed.

Lemma bot_webhook_again now1 now2 b db :
  fst (Bot.webhook now2 b (fst (Bot.webhook now1 b db))) =
  fst (Bot.webhook now1 b db).
Proof.
  destruct b as [|update_type payload]; [reflexivity|].
  unfold Bot.webhook.
  destruct (bool_decide (update_type = Some "invoice_paid")); [|reflexivity].
  cbv zeta.
  destruct (truthy_str _) eqn:Ht; [|reflexivity].
  destruct (find _ (Bot.orders db)) as [order|] eqn:Hfind.
  2: { cbn [fst]. rewrite Hfind. reflexivity. }
  destruct (bool_decide (Bot.status order = "pending")) eqn:Hst.
  2: { cbn [fst]. rewrite Hfind, Hst. reflexivity. }
  destruct (negb (from_option sqlite_int true _)) eqn:Hint.
  { cbn [fst]. rewrite Hfind, Hst. reflexivity. }
  cbn [fst].
  assert (Hfind1 :
    find (Bot.has_order_id (default "" (ev_payload (default no_invoice_data payload))))
         (Bot.orders
            (Bot.exec_insert_transaction
               (Bot.mkTransaction
                  (ev_invoice_id (default no_invoice_data payload))
                  (default "" (ev_payload (default no_invoice_data payload)))
                  (default (Numeric 0)
                           (ev_amount (default no_invoice_data payload)))
                  (default "" (ev_asset (default no_invoice_data payload)))
                  "paid")
               (Bot.exec_credit (Bot.user_id order) (Bot.amount_usd order)
                  (Bot.exec_mark_paid now1
                     (default "" (ev_payload (default no_invoice_data payload)))
                     db))))
    = Some (Bot.mark_paid now1 order)).
  { apply (bot_find_after_mark_paid now1 _ db order Hfind). }
  rewrite Hfind1. reflexivity.
Qed.

End Redelivery.

(** A webhook delivery that comes again changes nothing: whatever the body,
    handling it a second time (at any later clock) leaves the store exactly
    as the first handling left it, in the modular bot and in the single-file
    bot. In particular a paid update credits its order's owner once however
    often the provider repeats it. *)
Theorem webhook_redelivery_changes_nothing :
  (forall now1 now2 b db,
     fst (Webhook._handle_webhook now2 b
            (fst (Webhook._handle_webhook now1 b db))) =
     fst (Webhook._handle_webhook now1 b db)) /\
  (forall now1 now2 b db,
     fst (Bot.webhook now2 b (fst (Bot.webhook now1 b db))) =
     fst (Bot.webhook now1 b db)).
Proof.
  split; [|exact bot_webhook_again].
  intros now1 now2 b db. unfold Webhook._handle_webhook.
  destruct b as [|update_type payload]; [reflexivity|].
  destruct (bool_decide _); [apply webhook_paid_again|reflexivity].
Qed.

(** ** The two channels, the status route and the owner's row *)

Section Channels.
Import Database.

Lemma locate_by_payload oid inv db order :
  oid <> "" ->
  find (has_order_id oid) (orders db) = Some order ->
  Webhook.locate (Some oid) inv db = (db, inr (Some order)).
Proof.
  intros Hne Hfind. unfold Webhook.locate, bind, truthy_str.
  rewrite (bool_decide_eq_false_2 _ Hne). cbn [negb default from_option id].
  rewrite get_order_eq, Hfind. reflexivity.
Qed.


End Channels.





(** The status route answers 404 for an order id that is not stored, never
    changes the store, and after a paid update has settled the order named
    by its payload it reports that order as "paid", with the order's own
    amount and product. *)
Theorem status_route_reports_settlement :
  (forall oid db,
     find (Database.has_order_id oid) (Database.orders db) = None ->
     WebhookStatus.check_order_status oid db
     = (db, inr WebhookStatus.Status_404)) /\
  (forall oid db, fst (WebhookStatus.check_order_status oid db) = db) /\
  (forall now data db oid i order,
     oid <> "" ->
     ev_payload data = Some oid ->
     ev_invoice_id data = Some i -> i <> 0 ->
     find (Database.has_order_id oid) (Database.orders db) = Some order ->
     Database.status order <> "paid" ->
     snd (WebhookStatus.check_order_status oid
            (fst (Webhook._handle_invoice_paid now (Some data) db)))
     = inr (WebhookStatus.Status_200 "paid" (Database.amount_usd order)
                                     (Database.product_name order))).
Proof.
  split; [|split].
  - intros oid db Hfind. unfold WebhookStatus.check_order_status, bind.
    rewrite get_order_eq, Hfind. reflexivity.
  - intros oid db. unfold WebhookStatus.check_order_status, bind.
    rewrite get_order_eq. destruct (find _ _); reflexivity.
  - intros now data db oid i order Hoid Hpayload Hi Hnz Hfind Hst.
    assert (Hloc : Webhook.locate (ev_payload data) (Some i) db
                   = (db, inr (Some order))).
    { rewrite Hpayload. by apply locate_by_payload. }
    destruct (webhook_paid_orders now data db i order Hi Hnz Hloc Hst)
      as (f & Hf & Hpaid & Horders).
    unfold WebhookStatus.check_order_status, bind.
    rewrite get_order_eq, Horders.
    rewrite (find_has_order_id oid _ order Hfind).
    rewrite find_update_where by (intros o; by apply frozen_order_id).
    rewrite Hfind. cbn [fmap option_fmap option_map].
    assert (Hhas : Database.has_order_id oid order = true).
    { apply bool_decide_eq_true_2.
      by apply (find_has_order_id oid (Database.orders db)). }
    rewrite Hhas. cbn. rewrite Hpaid.
    pose proof (Hf order) as Hfo. unfold frozen in Hfo. simplify_eq.
    congruence.
Qed.

Lemma status_route_reports_settlement_witness :
  WebhookStatus.check_order_status "Z9" Scenario.db_pending
    = (Scenario.db_pending, inr WebhookStatus.Status_404) /\
  snd (WebhookStatus.check_order_status "A1"
         (fst (Webhook._handle_invoice_paid Scenario.t1
                 (Some Scenario.update_paid) Scenario.db_pending)))
    = inr (WebhookStatus.Status_200 "paid" 999 "Basic").
Proof.
  destruct status_route_reports_settlement as (Hmissing & _ & Hpaid).
  split.
  - apply Hmissing. reflexivity.
  - exact (Hpaid Scenario.t1 Scenario.update_paid Scenario.db_pending "A1" 7
             (Scenario.order_A1 "pending" None)
             ltac:(discriminate) eq_refl eq_refl ltac:(discriminate) eq_refl
             ltac:(cbn; discriminate)).
Defined.

(** ** Round trips and edges of the store *)

Section StoreRoundTrips.
Import Database.

Lemma set_orders_same (db : Store) : set_orders (fun rows => rows) db = db.
Proof. by destruct db. Qed.

Lemma update_where_unknown oid f rows :
  find (has_order_id oid) rows = None -> update_where oid f rows = rows.
Proof.
  intros Hnone. unfold update_where.
  induction rows as [|o rows IH]; [reflexivity|].
  cbn [find] in Hnone. cbn [map].
  destruct (has_order_id oid o); [discriminate|].
  by rewrite IH.
Qed.

Lemma find_update_where_other oid oid' f rows :
  oid' <> oid ->
  (forall o, order_id (f o) = order_id o) ->
  find (has_order_id oid') (update_where oid f rows) =
  find (has_order_id oid') rows.
Proof.
  intros Hne Hf. rewrite find_update_where by exact Hf.
  destruct (find (has_order_id oid') rows) as [o|] eqn:Hfind; [|reflexivity].
  cbn. apply find_has_order_id in Hfind.
  unfold has_order_id. rewrite bool_decide_eq_false_2 by congruence.
  reflexivity.
Qed.

Lemma filter_split_length {A} (p : A -> bool) (l : list A) :
  length l =
  (length (List.filter (fun x => negb (p x)) l) + length (List.filter p l))%nat.
Proof.
  induction l as [|x l IH]; [reflexivity|].
  cbn [List.filter]. destruct (p x); cbn [negb length]; lia.
Qed.

End StoreRoundTrips.

(** Writing an order's status and reading the order back: the row found for
    the id has the new status (and the new paid time when one is given, its
    old one otherwise) and the rest of its data as before; the row of any
    other order id reads as before; users and ledger are untouched; and for
    an order id that is not stored the update changes nothing at all. *)
Theorem order_status_round_trip oid st t db :
  let db' := fst (Database.update_order_status oid st t db) in
  (forall order,
     find (Database.has_order_id oid) (Database.orders db) = Some order ->
     find (Database.has_order_id oid) (Database.orders db') =
     Some (Database.mkOrder
             (Database.order_id order) (Database.user_id order)
             (Database.product_name order) (Database.amount_usd order)
             (Database.amount_crypto order) (Database.currency order)
             (Database.network order) (Database.invoice_id order) st
             (if truthy_str t then t else Database.paid_at order))) /\
  (forall oid',
     oid' <> oid ->
     find (Database.has_order_id oid') (Database.orders db') =
     find (Database.has_order_id oid') (Database.orders db)) /\
  Database.users db' = Database.users db /\
  Database.transactions db' = Database.transactions db /\
  (find (Database.has_order_id oid) (Database.orders db) = None -> db' = db).
Proof.
  cbv zeta. unfold Database.update_order_status, Database.get_connection.
  destruct (truthy_str t);
    cbn [fst Database.orders Database.users Database.transactions
         Database.set_orders].
  - repeat split.
    + intros order Hfind. rewrite find_update_where by reflexivity.
      rewrite Hfind. cbn. unfold Database.has_order_id.
      rewrite bool_decide_eq_true_2
        by (by apply (find_has_order_id oid (Database.orders db))).
      reflexivity.
    + intros oid' Hne. by apply find_update_where_other.
    + intros Hnone. unfold Database.set_orders.
      rewrite update_where_unknown by assumption. by destruct db.
  - repeat split.
    + intros order Hfind. rewrite find_update_where by reflexivity.
      rewrite Hfind. cbn. unfold Database.has_order_id.
      rewrite bool_decide_eq_true_2
        by (by apply (find_has_order_id oid (Database.orders db))).
      reflexivity.
    + intros oid' Hne. by apply find_update_where_other.
    + intros Hnone. unfold Database.set_orders.
      rewrite update_where_unknown by assumption. by destruct db.
Qed.

Lemma order_status_round_trip_witness :
  find (Database.has_order_id "A1")
       (Database.orders
          (fst (Database.update_order_status "A1" "expired" None
                                             Scenario.db_pending)))
    = Some (Scenario.order_A1 "expired" None) /\
  fst (Database.update_order_status "Z9" "expired" None Scenario.db_pending)
    = Scenario.db_pending.
Proof.
  destruct (order_status_round_trip "A1" "expired" None Scenario.db_pending)
    as (Hfound & _).
  destruct (order_status_round_trip "Z9" "expired" None Scenario.db_pending)
    as (_ & _ & _ & _ & Hmissing).
  split.
  - exact (Hfound (Scenario.order_A1 "pending" None) eq_refl).
  - exact (Hmissing eq_refl).
Defined.

(** The ledger's insert and its existence test: once a row is created for an
    invoice id the test for that id is true, and the test for any other id
    answers as it did before the insert. *)
Theorem ledger_round_trip inv oid amount cur net st db :
  let db' := fst (Database.create_transaction inv oid amount cur net st db) in
  Database.transaction_exists inv db' = (db', inr true) /\
  (forall inv',
     inv' <> inv ->
     snd (Database.transaction_exists inv' db')
     = snd (Database.transaction_exists inv' db)).
Proof.
  cbv zeta. rewrite create_transaction_eq. cbn [fst].
  rewrite !transaction_exists_eq.
  cbn [Database.transactions Database.set_transactions snd].
  split.
  - rewrite existsb_app. cbn. rewrite bool_decide_eq_true_2 by reflexivity.
    by rewrite orb_true_r.
  - intros inv' Hne. rewrite !transaction_exists_eq.
    cbn [Database.transactions Database.set_transactions snd].
    rewrite existsb_app. cbn.
    rewrite bool_decide_eq_false_2 by congruence.
    by rewrite !orb_false_r.
Qed.

Lemma ledger_round_trip_witness :
  snd (Database.transaction_exists 8
         (fst (Database.create_transaction 7 "A1" 999 "USDT" "" "paid"
                                           Scenario.db_pending)))
  = snd (Database.transaction_exists 8 Scenario.db_pending).
Proof.
  apply (proj2 (ledger_round_trip 7 "A1" 999 "USDT" "" "paid"
                  Scenario.db_pending) 8).
  discriminate.
Defined.

(** Registration through [get_or_create_user] never overwrites: for a user
    who has a row the store is left exactly as it was and that row is
    returned; for a new user one row with both aggregates at zero is added
    and nothing else changes; so registering a second time, with whatever
    names, changes nothing and the user's aggregates survive. *)
Theorem get_or_create_user_never_overwrites uid uname fname lname lang db :
  let db' := fst (Database.get_or_create_user uid uname fname lname lang db) in
  (forall u,
     Database.users db !! uid = Some u ->
     Database.get_or_create_user uid uname fname lname lang db
     = (db, inr (Some u))) /\
  (Database.users db !! uid = None ->
   Database.users db'
   = <[uid := Database.mkUser uname fname lname lang 0 0]> (Database.users db)) /\
  Database.orders db' = Database.orders db /\
  Database.transactions db' = Database.transactions db /\
  (forall uname' fname' lname' lang',
     fst (Database.get_or_create_user uid uname' fname' lname' lang' db') = db').
Proof.
  cbv zeta.
  unfold Database.get_or_create_user, Database.get_user,
    Database.get_connection.
  destruct (Database.users db !! uid) as [u|] eqn:Hu; cbn [fst].
  - repeat split.
    + by intros ? [= <-].
    + discriminate.
    + intros. by rewrite Hu.
  - repeat split.
    + discriminate.
    + intros. cbn [Database.users Database.set_users].
      by rewrite lookup_insert_eq.
Qed.

Lemma get_or_create_user_never_overwrites_witness :
  Database.get_or_create_user 42 (Some "other") None None None
                              Scenario.db_settled
  = (Scenario.db_settled,
     inr (Some (Database.mkUser (Some "ann") (Some "Ann") None (Some "ru")
                                999 1))).
Proof.
  apply (proj1 (get_or_create_user_never_overwrites 42 (Some "other") None
                  None None Scenario.db_settled)).
  reflexivity.
Defined.

(** The cleanup deletes only cancelled orders, and only old ones: every other
    order is kept, in its place, and a deleted one was cancelled and old; the
    users and the ledger are untouched (so a ledger row of a deleted order
    stays behind); and the number returned is the number of rows deleted. *)
Theorem delete_old_orders_only_cancelled old db :
  let '(db', r) := DatabaseOrders.delete_old_orders old db in
  (forall o,
     o ∈ Database.orders db' <->
     o ∈ Database.orders db /\
     ~ (Database.status o = "cancelled" /\ old o = true)) /\
  Database.users db' = Database.users db /\
  Database.transactions db' = Database.transactions db /\
  exists n, r = inr n /\
            length (Database.orders db)
            = (length (Database.orders db') + n)%nat.
Proof.
  unfold DatabaseOrders.delete_old_orders, Database.get_connection.
  cbn [Database.orders Database.users Database.transactions
       Database.set_orders].
  split; [|split; [reflexivity|split; [reflexivity|]]].
  - intros o. rewrite !list_elem_of_In, filter_In, <- !list_elem_of_In.
    split; intros [Hin Hkeep]; (split; [exact Hin|]).
    + intros [Hst Hold]. rewrite Hold in Hkeep.
      rewrite (bool_decide_eq_true_2 _ Hst) in Hkeep. discriminate.
    + destruct (bool_decide (Database.status o = "cancelled")) eqn:Hst;
        [|reflexivity].
      destruct (old o) eqn:Hold; [|reflexivity].
      exfalso. apply Hkeep. split; [|reflexivity].
      by apply bool_decide_eq_true_1 in Hst.
  - eexists. split; [reflexivity|]. apply filter_split_length.
Qed.

(** The purchase flow of the modular bot never stores an order: whatever the
    product, price, currency and provider's answer, the store is left as it
    was. For a price that is not positive it asks for an amount; otherwise,
    even when the provider has created the invoice, saving the order raises
    and the user is told that the payment could not be created. *)
Theorem create_payment_never_stores now oid uid product_id product_name
    price_usd currency network r db :
  let '(db', answer) :=
    MainPurchase.create_payment_callback now oid uid product_id product_name
      price_usd currency network r db in
  db' = db /\
  answer = inr (if bool_decide (price_usd <= 0)
                then MainPurchase.Ask_amount
                else MainPurchase.Creation_error).
Proof.
  unfold MainPurchase.create_payment_callback, try_except.
  destruct (bool_decide (price_usd <= 0)); [by split|].
  unfold bind, lift.
  destruct (MainPurchase.create_invoice _ _) as [e|invoice]; [by split|].
  destruct (MainPurchase.float _) as [e|amount]; [by split|].
  by split.
Qed.

(** ** bot.py: the admin sweep as one pass over the table *)

Section BotSweepPass.
Import Bot.

Lemma unique_row_id (rows : list Order) (x y : Order) :
  NoDup (map id rows) -> x ∈ rows -> y ∈ rows -> id x = id y -> x = y.
Proof.
  intros Hnd Hx Hy Hid.
  induction rows as [|r rows IH]; [by apply elem_of_nil in Hx|].
  cbn [map] in Hnd. apply NoDup_cons in Hnd as [Hnotin Hnd].
  apply elem_of_cons in Hx as [->|Hx];
    apply elem_of_cons in Hy as [->|Hy]; try reflexivity.
  - exfalso. apply Hnotin. rewrite Hid. by apply list_elem_of_fmap_2.
  - exfalso. apply Hnotin. rewrite <- Hid. by apply list_elem_of_fmap_2.
  - by apply IH.
Qed.

Lemma filter_filter_andb {A} (p q : A -> bool) (l : list A) :
  List.filter p (List.filter q l) = List.filter (fun x => q x && p x) l.
Proof.
  induction l as [|x l IH]; [reflexivity|].
  cbn [List.filter]. destruct (q x); cbn [andb List.filter]; [|exact IH].
  destruct (p x); by rewrite IH.
Qed.

Lemma filter_nothing {A} (p : A -> bool) (l : list A) :
  (forall x, x ∈ l -> p x = false) -> List.filter p l = [].
Proof.
  intros Hp. induction l as [|x l IH]; [reflexivity|].
  cbn [List.filter]. rewrite (Hp x) by (apply elem_of_cons; by left).
  apply IH. intros y Hy. apply Hp. apply elem_of_cons. by right.
Qed.


Lemma map_agree {A B} (f g : A -> B) (l : list A) :
  (forall x, x ∈ l -> f x = g x) -> map f l = map g l.
Proof.
  intros Hf. induction l as [|x l IH]; [reflexivity|].
  cbn [map]. rewrite (Hf x) by (apply elem_of_cons; by left).
  f_equal. apply IH. intros y Hy. apply Hf. apply elem_of_cons. by right.
Qed.

(** The rows of [selected] among the rows of a table with unique row ids:
    a row of the table has the row id of a selected row exactly when it is
    selected itself. *)
Lemma row_id_selected (p : Order -> bool) rows o :
  NoDup (map id rows) -> o ∈ rows ->
  existsb (fun r => bool_decide (id o = id r)) (List.filter p rows) = p o.
Proof.
  intros Hnd Hin.
  destruct (p o) eqn:Hp.
  - apply existsb_exists. exists o. split.
    + apply filter_In. split; [by apply list_elem_of_In|exact Hp].
    + by apply bool_decide_eq_true_2.
  - destruct (existsb _ _) eqn:Hex; [|reflexivity].
    apply existsb_exists in Hex as (r & Hr & Hid).
    apply filter_In in Hr as [Hr Hpr].
    apply bool_decide_eq_true_1 in Hid.
    apply list_elem_of_In in Hr.
    rewrite (unique_row_id rows o r Hnd Hin Hr Hid) in Hp. congruence.
Qed.

Lemma sweep_step_eq now gw conn checked confirmed o :
  sweep_step now gw (conn, (checked, confirmed)) o =
  if BotSweep.reported_paid gw o
  then (exec_credit (user_id o) (amount_usd o)
          (exec_mark_paid_by_id now (id o) conn),
        (S checked, S confirmed))
  else if BotSweep.answered gw o then (conn, (S checked, confirmed))
       else (conn, (checked, confirmed)).
Proof.
  unfold sweep_step, BotSweep.reported_paid, BotSweep.answered.
  destruct (api_check_payment (gw (invoice_id o))) as [e|payment];
    [reflexivity|].
  by destruct (p_is_paid payment).
Qed.

Lemma reported_paid_answered gw o :
  BotSweep.reported_paid gw o = true -> BotSweep.answered gw o = true.
Proof.
  unfold BotSweep.reported_paid, BotSweep.answered.
  by destruct (api_check_payment (gw (invoice_id o))).
Qed.

(** The loop of the sweep over [rows], started at turn [turn] on the
    connection [conn] and the counters [checked] and [confirmed]. *)
Lemma sweep_fold clock gw turn rows conn checked confirmed :
  for_each_pending clock gw turn rows (conn, (checked, confirmed)) =
  (mkStore
     (fold_left BotSweep.credit_owner
                (List.filter (BotSweep.reported_paid gw) rows) (users conn))
     (map (BotSweep.stamp clock gw turn rows) (orders conn))
     (transactions conn),
   ((checked + length (List.filter (BotSweep.answered gw) rows))%nat,
    (confirmed + length (List.filter (BotSweep.reported_paid gw) rows))%nat)).
Proof.
  revert turn conn checked confirmed.
  induction rows as [|o rows IH]; intros turn conn checked confirmed.
  - cbn. rewrite map_id, !Nat.add_0_r. by destruct conn.
  - cbn [for_each_pending List.filter BotSweep.stamp]. rewrite sweep_step_eq.
    destruct (BotSweep.reported_paid gw o) eqn:Hpaid.
    + rewrite (reported_paid_answered gw o Hpaid), IH.
      cbn [length fold_left andb].
      unfold exec_credit, exec_mark_paid_by_id, set_users, set_orders.
      cbn [users orders transactions].
      f_equal; [|f_equal; lia].
      f_equal. by rewrite map_map.
    + cbn [andb].
      destruct (BotSweep.answered gw o); rewrite IH; [|reflexivity].
      cbn [length]. f_equal. f_equal. lia.
Qed.

(** A row whose id no turn asks for is left alone. *)
Lemma stamp_other clock gw turn rows o :
  (forall r, r ∈ rows -> id o <> id r) ->
  BotSweep.stamp clock gw turn rows o = o.
Proof.
  revert turn. induction rows as [|r rows IH]; intros turn Hne; [reflexivity|].
  cbn [BotSweep.stamp].
  rewrite (bool_decide_eq_false_2 (id o = id r))
    by (apply Hne; apply elem_of_cons; by left).
  rewrite andb_false_r. apply IH.
  intros r' Hr'. apply Hne. apply elem_of_cons. by right.
Qed.

Lemma elem_of_filter_pending r rows :
  r ∈ List.filter is_pending rows -> r ∈ rows.
Proof.
  intros Hr. apply list_elem_of_In in Hr. apply filter_In in Hr as [Hr _].
  by apply list_elem_of_In.
Qed.

(** With unique row ids, the by-id updates of the turns over the pending
    rows of a table give, row by row, the table after the sweep. *)
Lemma stamp_swept clock gw turn rows :
  NoDup (map id rows) ->
  map (BotSweep.stamp clock gw turn (List.filter is_pending rows)) rows =
  BotSweep.swept clock gw turn rows.
Proof.
  revert turn. induction rows as [|o rows IH]; intros turn Hnd; [reflexivity|].
  cbn [map] in Hnd. apply NoDup_cons in Hnd as [Hnotin Hnd].
  assert (Hfresh : forall r, r ∈ rows -> id o <> id r).
  { intros r Hr Heq. apply Hnotin. rewrite Heq.
    by apply list_elem_of_fmap_2. }
  cbn [List.filter BotSweep.swept map].
  destruct (is_pending o).
  - cbn [BotSweep.stamp].
    rewrite (bool_decide_eq_true_2 (id o = id o)) by reflexivity.
    rewrite andb_true_r. f_equal.
    + destruct (BotSweep.reported_paid gw o);
        apply stamp_other; intros r Hr; cbn [id mark_paid];
        apply Hfresh; by apply elem_of_filter_pending.
    + rewrite <- (IH (S turn) Hnd). apply map_agree. intros x Hx.
      rewrite (bool_decide_eq_false_2 (id x = id o))
        by (intros Heq; by apply (Hfresh x Hx)).
      by rewrite andb_false_r.
  - f_equal; [|by apply IH].
    apply stamp_other. intros r Hr. apply Hfresh.
    by apply elem_of_filter_pending.
Qed.

(** The rows of a swept table, their row ids, and which of them a further
    sweep would settle. *)
Lemma swept_ids clock gw turn rows :
  map id (BotSweep.swept clock gw turn rows) = map id rows.
Proof.
  revert turn. induction rows as [|o rows IH]; intros turn; [reflexivity|].
  cbn [BotSweep.swept]. destruct (is_pending o); cbn [map]; rewrite IH;
    [|reflexivity].
  by destruct (BotSweep.reported_paid gw o).
Qed.

Lemma swept_settled clock gw turn rows x :
  x ∈ BotSweep.swept clock gw turn rows ->
  is_pending x && BotSweep.reported_paid gw x = false.
Proof.
  revert turn. induction rows as [|o rows IH]; intros turn Hx.
  - by apply elem_of_nil in Hx.
  - cbn [BotSweep.swept] in Hx.
    destruct (is_pending o) eqn:Hp.
    + apply elem_of_cons in Hx as [->|Hx]; [|by apply (IH (S turn))].
      destruct (BotSweep.reported_paid gw o) eqn:Hpaid; [reflexivity|].
      by rewrite Hp, Hpaid.
    + apply elem_of_cons in Hx as [->|Hx]; [|by apply (IH turn)].
      by rewrite Hp.
Qed.

Lemma swept_nothing clock gw turn rows :
  (forall x, x ∈ rows -> is_pending x && BotSweep.reported_paid gw x = false) ->
  BotSweep.swept clock gw turn rows = rows.
Proof.
  revert turn. induction rows as [|o rows IH]; intros turn Hnone;
    [reflexivity|].
  assert (Ho : is_pending o && BotSweep.reported_paid gw o = false)
    by (apply Hnone; apply elem_of_cons; by left).
  assert (Hrest : forall x, x ∈ rows ->
                    is_pending x && BotSweep.reported_paid gw x = false)
    by (intros x Hx; apply Hnone; apply elem_of_cons; by right).
  cbn [BotSweep.swept]. destruct (is_pending o); cbn [andb] in Ho.
  - rewrite Ho. f_equal. by apply IH.
  - f_equal. by apply IH.
Qed.

End BotSweepPass.

Section BotSweepStore.
Import Bot.

Lemma admin_check_all_pass clock gw db :
  NoDup (map id (orders db)) ->
  admin_check_all true clock gw db =
  (mkStore
     (fold_left BotSweep.credit_owner
                (List.filter
                   (fun o => is_pending o && BotSweep.reported_paid gw o)
                   (orders db))
                (users db))
     (BotSweep.swept clock gw 0 (orders db))
     (transactions db),
   if existsb is_pending (orders db)
   then Sweep_done
          (length (List.filter
                     (fun o => is_pending o && BotSweep.answered gw o)
                     (orders db)))
          (length (List.filter
                     (fun o => is_pending o && BotSweep.reported_paid gw o)
                     (orders db)))
   else Nothing_pending).
Proof.
  intros Hnd. unfold admin_check_all. cbn [negb].
  set (settled := fun o => is_pending o && BotSweep.reported_paid gw o).
  destruct (List.filter is_pending (orders db)) as [|o rows] eqn:Hp.
  - assert (Hnone : forall x, x ∈ orders db -> is_pending x = false).
    { intros x Hx. destruct (is_pending x) eqn:Hpx; [|reflexivity].
      assert (Hin : In x (List.filter is_pending (orders db))).
      { apply filter_In. split; [by apply list_elem_of_In|exact Hpx]. }
      rewrite Hp in Hin. destruct Hin. }
    assert (Hex : existsb is_pending (orders db) = false).
    { destruct (existsb _ _) eqn:Hex; [|reflexivity].
      apply existsb_exists in Hex as (x & Hx & Hpx).
      apply list_elem_of_In in Hx. rewrite (Hnone x Hx) in Hpx.
      discriminate. }
    rewrite Hex, (filter_nothing settled).
    + rewrite swept_nothing; [by destruct db|].
      intros x Hx. by rewrite (Hnone x Hx).
    + intros x Hx. unfold settled. by rewrite (Hnone x Hx).
  - assert (Hex : existsb is_pending (orders db) = true).
    { apply existsb_exists. exists o.
      assert (Hin : In o (List.filter is_pending (orders db))).
      { rewrite Hp. by left. }
      by apply filter_In in Hin. }
    subst settled.
    rewrite Hex, <- Hp, sweep_fold, !filter_filter_andb.
    cbn [users orders transactions Nat.add].
    by rewrite (stamp_swept clock gw 0 (orders db) Hnd).
Qed.

End BotSweepStore.

(** The admin sweep is one pass over the table. On a table whose row ids are
    unique (they are the primary key), the sweep of an admin leaves exactly
    this: every pending order takes one turn, in table order, and an order
    that the gateway reports paid is marked paid with the clock reading of
    its own turn, every other order being as it was; the owners of the
    settled orders are credited with their amounts, one after the other in
    table order; the ledger is as it was; and the two numbers reported are
    the number of pending orders for which the gateway call returned and the
    number of settled orders. For someone who is not an admin nothing
    happens. *)
Theorem sweep_is_one_pass is_admin clock gw db :
  NoDup (map Bot.id (Bot.orders db)) ->
  let settled o := Bot.is_pending o && BotSweep.reported_paid gw o in
  let asked o := Bot.is_pending o && BotSweep.answered gw o in
  Bot.admin_check_all is_admin clock gw db =
  if is_admin then
    (Bot.mkStore
       (fold_left BotSweep.credit_owner
                  (List.filter settled (Bot.orders db)) (Bot.users db))
       (BotSweep.swept clock gw 0 (Bot.orders db))
       (Bot.transactions db),
     if existsb Bot.is_pending (Bot.orders db)
     then Bot.Sweep_done (length (List.filter asked (Bot.orders db)))
                         (length (List.filter settled (Bot.orders db)))
     else Bot.Nothing_pending)
  else (db, Bot.Not_admin).
Proof.
  intros Hnd settled asked. destruct is_admin; [|reflexivity].
  by apply admin_check_all_pass.
Qed.

(** Two pending orders, both reported paid, swept at two readings of the
    clock: each is marked paid at the reading of its own turn. *)
Lemma sweep_is_one_pass_witness :
  let clock turn := match turn with O => Scenario.t1 | _ => Scenario.t2 end in
  Bot.admin_check_all true clock (Scenario.reports "paid")
    (Bot.mkStore {[ 42 := Scenario.bot_ann ]}
       [Scenario.bot_order_A1 "pending" None;
        Bot.mkOrder 2 "B2" 42 "Pro" 2500 "TON" 8 "pending" None] [])
  = (Bot.mkStore {[ 42 := Bot.mkUser (Some "ann") (Some "Ann") 3499 2 ]}
       [Scenario.bot_order_A1 "paid" (Some Scenario.t1);
        Bot.mkOrder 2 "B2" 42 "Pro" 2500 "TON" 8 "paid" (Some Scenario.t2)] [],
     Bot.Sweep_done 2 2).
Proof.
  intros clock.
  rewrite (sweep_is_one_pass true clock (Scenario.reports "paid")).
  - reflexivity.
  - cbn. apply NoDup_cons. split; [|apply NoDup_singleton].
    intros Hin. apply list_elem_of_singleton in Hin. discriminate.
Defined.

(** A second sweep, the gateway answering as before, settles nothing: the
    orders the first sweep marked paid are no longer pending, and the others
    were not reported paid. The store is left as the first sweep left it and
    the second report counts no confirmation (unlike the user's own check,
    which credits again when pressed again). *)
Theorem sweep_again_settles_nothing clock1 clock2 gw db :
  NoDup (map Bot.id (Bot.orders db)) ->
  let db1 := fst (Bot.admin_check_all true clock1 gw db) in
  exists answer,
    Bot.admin_check_all true clock2 gw db1 = (db1, answer) /\
    forall checked confirmed,
      answer = Bot.Sweep_done checked confirmed -> confirmed = 0%nat.
Proof.
  intros Hnd db1.
  set (settled := fun o => Bot.is_pending o && BotSweep.reported_paid gw o).
  assert (Horders : Bot.orders db1 = BotSweep.swept clock1 gw 0 (Bot.orders db)).
  { unfold db1. by rewrite admin_check_all_pass. }
  assert (Hnone : forall x, x ∈ Bot.orders db1 ->
                    Bot.is_pending x && BotSweep.reported_paid gw x = false).
  { intros x Hx. rewrite Horders in Hx. by apply swept_settled in Hx. }
  assert (Hnd1 : NoDup (map Bot.id (Bot.orders db1))).
  { by rewrite Horders, swept_ids. }
  rewrite (admin_check_all_pass clock2 gw db1 Hnd1).
  rewrite (filter_nothing _ _ Hnone), (swept_nothing _ _ _ _ Hnone).
  eexists. split.
  - cbn [fold_left length]. f_equal. by destruct db1.
  - intros checked confirmed.
    destruct (existsb Bot.is_pending (Bot.orders db1)); [|discriminate].
    by intros [= _ <-].
Qed.

Lemma sweep_again_settles_nothing_witness :
  exists answer,
    Bot.admin_check_all true (fun _ => Scenario.t2) (Scenario.reports "paid")
      (fst (Bot.admin_check_all true (fun _ => Scenario.t1)
              (Scenario.reports "paid") Scenario.bot_pending))
    = (fst (Bot.admin_check_all true (fun _ => Scenario.t1)
              (Scenario.reports "paid") Scenario.bot_pending), answer) /\
    forall checked confirmed,
      answer = Bot.Sweep_done checked confirmed -> confirmed = 0%nat.
Proof.
  apply (sweep_again_settles_nothing (fun _ => Scenario.t1)
           (fun _ => Scenario.t2) (Scenario.reports "paid")
           Scenario.bot_pending).
  cbn. apply NoDup_singleton.
Defined.

(** ** bot.py: callback data, keyboards and the purchase *)

Section CallbackData.

Lemma no_colon_cons c s :
  str_contains ":" (String c s) = false ->
  Ascii.eqb c ":" = false /\ str_contains ":" s = false.
Proof.
  cbn [str_contains String.prefix]. intros H.
  apply orb_false_iff in H as [Hhead Hrest]. split; [|exact Hrest].
  destruct (ascii_dec ":" c) as [<-|Hne].
  - by destruct s.
  - apply Ascii.eqb_neq. congruence.
Qed.

Lemma split_on_no_colon s :
  str_contains ":" s = false -> split_on ":" s = [s].
Proof.
  induction s as [|c s IH]; [reflexivity|].
  intros H. apply no_colon_cons in H as [Hc Hs].
  cbn [split_on]. by rewrite Hc, (IH Hs).
Qed.

Lemma split_on_prefixed prefix arg :
  str_contains ":" prefix = false -> str_contains ":" arg = false ->
  split_on ":" (prefix +:+ ":" +:+ arg) = [prefix; arg].
Proof.
  intros Hprefix Harg. induction prefix as [|c prefix IH].
  - change (split_on ":" (String ":" arg) = [""; arg]).
    cbn [split_on]. by rewrite Ascii.eqb_refl, (split_on_no_colon arg Harg).
  - apply no_colon_cons in Hprefix as [Hc Hprefix].
    change (split_on ":" (String c (prefix +:+ ":" +:+ arg))
            = [String c prefix; arg]).
    cbn [split_on]. by rewrite Hc, (IH Hprefix).
Qed.

(** [f"{prefix}:{arg}".split(":")[1]] is [arg]. *)
Lemma callback_arg_prefixed prefix arg :
  str_contains ":" prefix = false -> str_contains ":" arg = false ->
  callback_arg (prefix +:+ ":" +:+ arg) = inr arg.
Proof.
  intros Hprefix Harg. unfold callback_arg.
  by rewrite split_on_prefixed.
Qed.

Lemma callback_arg_check oid :
  str_contains ":" oid = false -> callback_arg ("check:" +:+ oid) = inr oid.
Proof. intros H. exact (callback_arg_prefixed "check" oid eq_refl H). Qed.

Lemma callback_arg_cancel oid :
  str_contains ":" oid = false -> callback_arg ("cancel:" +:+ oid) = inr oid.
Proof. intros H. exact (callback_arg_prefixed "cancel" oid eq_refl H). Qed.

Lemma callback_arg_order oid :
  str_contains ":" oid = false -> callback_arg ("order:" +:+ oid) = inr oid.
Proof. intros H. exact (callback_arg_prefixed "order" oid eq_refl H). Qed.

End CallbackData.

(** The buttons address their order. For an order id that holds no colon
    (the generated ids are a timestamp, an underscore and eight hex digits):
    the callback data of every button of the payment keyboard decodes to the
    order id the keyboard was built for; pressing "I paid" runs the check of
    that order and pressing "cancel" its cancellation; the order's detail
    view shows the keyboard for its stored status, which offers the check
    and the cancellation exactly when the order is pending. *)
Theorem buttons_address_their_order now gw url oid db :
  str_contains ":" oid = false ->
  (forall data,
     data ∈ BotKeyboards.callbacks (BotKeyboards.payment_keyboard url oid) ->
     callback_arg data = inr oid) /\
  BotKeyboards.callbacks (BotKeyboards.payment_keyboard url oid)
    = ["check:" +:+ oid; "cancel:" +:+ oid] /\
  BotKeyboards.on_check now gw ("check:" +:+ oid) db
    = (let '(db', r) := Bot.check_payment now gw oid db in (db', inr r)) /\
  BotKeyboards.on_cancel ("cancel:" +:+ oid) db
    = (let '(db', r) := Bot.cancel_order oid db in (db', inr r)) /\
  (forall order,
     find (Bot.has_order_id oid) (Bot.orders db) = Some order ->
     BotKeyboards.order_detail ("order:" +:+ oid) db
       = inr (Some (BotKeyboards.order_detail_keyboard oid (Bot.status order)))
     /\
     BotKeyboards.callbacks
       (BotKeyboards.order_detail_keyboard oid (Bot.status order))
       = if bool_decide (Bot.status order = "pending")
         then ["check:" +:+ oid; "cancel:" +:+ oid; "back:orders"]
         else ["back:orders"]).
Proof.
  intros Hoid.
  split; [|split; [reflexivity|split; [|split]]].
  - intros data Hdata. cbn in Hdata.
    apply elem_of_cons in Hdata as [->|Hdata];
      [by apply callback_arg_check|].
    apply elem_of_cons in Hdata as [->|Hdata];
      [by apply callback_arg_cancel|].
    by apply elem_of_nil in Hdata.
  - unfold BotKeyboards.on_check. by rewrite (callback_arg_check oid Hoid).
  - unfold BotKeyboards.on_cancel. by rewrite (callback_arg_cancel oid Hoid).
  - intros order Hfind. split.
    + unfold BotKeyboards.order_detail.
      by rewrite (callback_arg_order oid Hoid), Hfind.
    + unfold BotKeyboards.order_detail_keyboard.
      by destruct (bool_decide (Bot.status order = "pending")).
Qed.

Lemma buttons_address_their_order_witness :
  BotKeyboards.on_cancel "cancel:A1" Scenario.bot_pending
  = (Bot.mkStore {[ 42 := Scenario.bot_ann ]}
                 [Scenario.bot_order_A1 "cancelled" None] [],
     inr Bot.Order_cancelled).
Proof.
  destruct (buttons_address_their_order Scenario.t1 Scenario.unreachable
              "https://t.me/CryptoBot?start=IV7" "A1" Scenario.bot_pending
              eq_refl)
    as (_ & _ & _ & Hcancel & _).
  exact Hcancel.
Defined.

Section Purchase.
Import Bot.







End Purchase.





(** ** admin.py: the sweep of the modular bot *)

Section ModularSweep.
Import Database.

Lemma sweep_order_eq now gw checked confirmed o db :
  now <> "" ->
  AdminSweep.sweep_order now gw (checked, confirmed) o db =
  if AdminSweep.reported_paid gw o
  then (AdminSweep.settle now db o,
        inr (if AdminSweep.has_ledger_row (transactions db) o
             then (S checked, S confirmed) else (checked, confirmed)))
  else if AdminSweep.answered gw o then (db, inr (S checked, confirmed))
       else (db, inr (checked, confirmed)).
Proof.
  intros Hnow.
  unfold AdminSweep.sweep_order, AdminSweep.reported_paid,
    AdminSweep.answered, try_except, bind at 1, lift.
  destruct (CryptoBot.check_payment _ _) as [e|payment]; [reflexivity|].
  destruct (CryptoBot.is_paid payment); [|reflexivity].
  unfold bind. rewrite update_order_status_paid_eq by exact Hnow.
  rewrite update_user_stats_eq, transaction_exists_eq.
  cbn [transactions set_users set_orders users orders].
  unfold AdminSweep.has_ledger_row.
  by destruct (existsb _ (transactions db)).
Qed.

Lemma for_each_sweep_eq clock gw turn rows checked confirmed db :
  (forall t, clock t <> "") ->
  AdminSweep.for_each clock gw turn rows (checked, confirmed) db =
  (AdminSweep.settle_each clock gw turn rows db,
   inr ((checked +
         length (List.filter
                   (fun o => AdminSweep.answered gw o &&
                             (negb (AdminSweep.reported_paid gw o) ||
                              AdminSweep.has_ledger_row (transactions db) o))
                   rows))%nat,
        (confirmed +
         length (List.filter
                   (fun o => AdminSweep.reported_paid gw o &&
                             AdminSweep.has_ledger_row (transactions db) o)
                   rows))%nat)).
Proof.
  intros Hclock. revert turn checked confirmed db.
  induction rows as [|o rows IH]; intros turn checked confirmed db.
  - cbn. by rewrite !Nat.add_0_r.
  - cbn [AdminSweep.for_each AdminSweep.settle_each List.filter].
    unfold bind. rewrite sweep_order_eq by apply Hclock.
    destruct (AdminSweep.reported_paid gw o) eqn:Hpaid.
    + assert (Hans : AdminSweep.answered gw o = true).
      { unfold AdminSweep.reported_paid in Hpaid. unfold AdminSweep.answered.
        by destruct (CryptoBot.check_payment _ _). }
      rewrite Hans. cbn [negb orb andb].
      destruct (AdminSweep.has_ledger_row (transactions db) o);
        rewrite IH; cbn [AdminSweep.settle transactions length];
        f_equal; f_equal; f_equal; lia.
    + cbn [negb orb andb]. rewrite andb_true_r.
      destruct (AdminSweep.answered gw o); rewrite IH; [|reflexivity].
      cbn [length]. f_equal. f_equal. f_equal. lia.
Qed.

Lemma settle_each_transactions clock gw turn rows db :
  transactions (AdminSweep.settle_each clock gw turn rows db)
  = transactions db.
Proof.
  revert turn db. induction rows as [|o rows IH]; intros turn db;
    [reflexivity|].
  cbn [AdminSweep.settle_each]. rewrite IH.
  by destruct (AdminSweep.reported_paid gw o).
Qed.

Lemma settle_each_frozen clock gw turn rows db :
  map frozen (orders (AdminSweep.settle_each clock gw turn rows db))
  = map frozen (orders db).
Proof.
  revert turn db. induction rows as [|o rows IH]; intros turn db;
    [reflexivity|].
  cbn [AdminSweep.settle_each]. rewrite IH.
  destruct (AdminSweep.reported_paid gw o); [|reflexivity].
  cbn [AdminSweep.settle orders]. by apply update_where_frozen.
Qed.

End ModularSweep.

(** The sweep of the modular bot, for the pending orders its query selects.
    The selected orders take one turn each, in the order of the query; an
    order that the gateway reports paid is settled in its turn (the rows of
    its order id marked paid with the clock reading of that turn, its owner
    credited with its amount); nothing else in the store changes: the ledger
    never gets a row, and every row keeps its order data. The report counts
    a settled order as checked and confirmed only when the ledger already
    holds a row for its invoice; an order for which the gateway call raises
    is skipped, and the sweep itself never raises. For someone who is not an
    admin nothing happens. The clock's readings are non-empty texts. *)
Theorem modular_sweep_settles_without_ledger
    is_admin clock gw recent by_created_at db :
  (forall turn, clock turn <> "") ->
  let selected :=
    by_created_at
      (List.filter
         (fun o => bool_decide (Database.status o = "pending") && recent o)
         (Database.orders db)) in
  let ledger := Database.transactions db in
  let result :=
    AdminSweep.check_all_pending is_admin clock gw recent by_created_at db in
  result =
  (if is_admin then
     (AdminSweep.settle_each clock gw 0 selected db,
      inr match selected with
          | [] => AdminSweep.Nothing_pending
          | _ =>
              AdminSweep.Sweep_done
                (length
                   (List.filter
                      (fun o => AdminSweep.answered gw o &&
                                (negb (AdminSweep.reported_paid gw o) ||
                                 AdminSweep.has_ledger_row ledger o))
                      selected))
                (length
                   (List.filter
                      (fun o => AdminSweep.reported_paid gw o &&
                                AdminSweep.has_ledger_row ledger o)
                      selected))
          end)
   else (db, inr AdminSweep.Not_admin)) /\
  Database.transactions (fst result) = ledger /\
  map frozen (Database.orders (fst result)) = map frozen (Database.orders db).
Proof.
  intros Hclock selected ledger result.
  assert (Heq : result =
    if is_admin then
      (AdminSweep.settle_each clock gw 0 selected db,
       inr match selected with
           | [] => AdminSweep.Nothing_pending
           | _ =>
               AdminSweep.Sweep_done
                 (length
                    (List.filter
                       (fun o => AdminSweep.answered gw o &&
                                 (negb (AdminSweep.reported_paid gw o) ||
                                  AdminSweep.has_ledger_row ledger o))
                       selected))
                 (length
                    (List.filter
                       (fun o => AdminSweep.reported_paid gw o &&
                                 AdminSweep.has_ledger_row ledger o)
                       selected))
           end)
    else (db, inr AdminSweep.Not_admin)).
  { unfold result, AdminSweep.check_all_pending.
    destruct is_admin; cbn [negb]; [|reflexivity].
    unfold bind at 1, AdminSweep.get_pending_orders, Database.get_connection.
    fold selected. destruct selected as [|o rows] eqn:Hsel; [reflexivity|].
    unfold bind. rewrite for_each_sweep_eq by exact Hclock. reflexivity. }
  split; [exact Heq|]. rewrite Heq.
  destruct is_admin; cbn [fst]; [|by split].
  split; [apply settle_each_transactions|apply settle_each_frozen].
Qed.

(** Two pending orders, both reported paid, swept at two readings of the
    clock on a store without ledger rows: both are settled, each at the
    reading of its own turn, and the report counts neither. *)
Lemma modular_sweep_settles_without_ledger_witness :
  let clock turn := match turn with O => Scenario.t1 | _ => Scenario.t2 end in
  AdminSweep.check_all_pending true clock (Scenario.reports "paid")
    (fun _ => true) (fun rows => rows)
    (Database.mkStore {[ 42 := Scenario.ann ]}
       [Scenario.order_A1 "pending" None;
        Database.mkOrder "B2" 42 "Pro" 2500 2500 "TON" "" 8 "pending" None] [])
  = (Database.mkStore
       {[ 42 := Database.mkUser (Some "ann") (Some "Ann") None (Some "ru")
                                3499 2 ]}
       [Scenario.order_A1 "paid" (Some Scenario.t1);
        Database.mkOrder "B2" 42 "Pro" 2500 2500 "TON" "" 8 "paid"
                         (Some Scenario.t2)] [],
     inr (AdminSweep.Sweep_done 0 0)).
Proof.
  intros clock.
  destruct (modular_sweep_settles_without_ledger true clock
              (Scenario.reports "paid") (fun _ => true) (fun rows => rows)
              (Database.mkStore {[ 42 := Scenario.ann ]}
                 [Scenario.order_A1 "pending" None;
                  Database.mkOrder "B2" 42 "Pro" 2500 2500 "TON" "" 8
                                   "pending" None] []))
    as (Heq & _); [by intros [|turn]|].
  rewrite Heq. reflexivity.
Defined.

(** ** No poll path writes a status other than "paid" *)

Section PollPaths.












End PollPaths.


